(** * The docker-compose action plugin (action_plugins/docker-compose.py)

    A shallow embedding of [ActionModule] and of the operations its [run]
    method sequences on the target host, followed by the properties of the
    reconciliation that the specification states.

    Python values are embedded in [value]; dictionaries are association
    lists, because [data.values()] is iterated in order and the entries are
    themselves values.  The remote side (the runner and the template module)
    is a deterministic machine [respond] over an abstract [World]; every
    call made to it is appended, with the raw result it gave, to the
    [trace] kept next to the plugin's own fields.  The [vv] and [vvv]
    display callbacks only print and are left out. *)

From Stdlib Require Import String Ascii List Bool ZArith Lia.
Import ListNotations.
Open Scope string_scope.

Set Warnings "-register-all".

(** ** Python values *)

Inductive value : Type :=
| VNone
| VBool (b : bool)
| VInt (z : Z)
| VStr (s : string)
| VList (l : list value)
| VDict (d : list (string * value)).

Definition dict := list (string * value).

(** Truth value of an object, as tested by [if x:] and [not x]. *)
Definition truthy (v : value) : bool :=
  match v with
  | VNone => false
  | VBool b => b
  | VInt z => negb (Z.eqb z 0)
  | VStr s => negb (String.eqb s "")
  | VList l => match l with [] => false | _ :: _ => true end
  | VDict d => match d with [] => false | _ :: _ => true end
  end.

(** [v == s] for a string constant [s]. *)
Definition str_eq (v : value) (s : string) : bool :=
  match v with
  | VStr t => String.eqb t s
  | _ => false
  end.

(** [v in (s1, ..., sn)] for a tuple of string constants. *)
Definition in_strs (v : value) (l : list string) : bool :=
  existsb (str_eq v) l.

(** ** Dictionaries *)

Fixpoint dict_lookup (k : string) (d : dict) : option value :=
  match d with
  | [] => None
  | (k', v) :: d' => if String.eqb k k' then Some v else dict_lookup k d'
  end.

(** [d.get(k, default)] *)
Definition dict_get (k : string) (default : value) (d : dict) : value :=
  match dict_lookup k d with
  | Some v => v
  | None => default
  end.

(** [d[k] = v] *)
Fixpoint dict_set (k : string) (v : value) (d : dict) : dict :=
  match d with
  | [] => [(k, v)]
  | (k', v') :: d' =>
      if String.eqb k k' then (k, v) :: d' else (k', v') :: dict_set k v d'
  end.

(** [d.update(e)] *)
Definition dict_update (d e : dict) : dict :=
  fold_left (fun acc kv => dict_set (fst kv) (snd kv) acc) e d.

(** [d.values()] *)
Definition dict_values (d : dict) : list value := map snd d.

(** ** Exceptions *)

Inductive exn : Type :=
| ModuleError (message : value)
| KeyError (key : string)
| TypeError
| AttributeError.

(** [v[k]] for a string key [k]. *)
Definition subscript (v : value) (k : string) : exn + value :=
  match v with
  | VDict d =>
      match dict_lookup k d with
      | Some x => inr x
      | None => inl (KeyError k)
      end
  | _ => inl TypeError
  end.

(** [k in v] for a string constant [k]: key membership in a dictionary,
    substring test on a string, element test on a list; the other values
    are not iterable. *)
Definition contains (k : string) (v : value) : exn + bool :=
  match v with
  | VDict d =>
      inr (match dict_lookup k d with Some _ => true | None => false end)
  | VStr s =>
      inr (match String.index 0 k s with Some _ => true | None => false end)
  | VList l => inr (existsb (fun e => str_eq e k) l)
  | _ => inl TypeError
  end.

(** ** Module constants *)

Definition ABSENT := "absent".
Definition LATEST := "latest".
Definition PRESENT := "present".
Definition RESTARTED := "restarted".
Definition STARTED := "started".

(** ** Calls made to the target host *)

(** [ExecuteModule] is [runner._execute_module(conn, tmp, module_name,
    module_args, inject=inject, complex_args=complex_args)];
    [TemplateRun] is the template module's [run(conn, tmp, "template",
    module_args, inject=module_inject)] on a temporary file holding
    [template_body].  The connection and the remote temporary directory are
    the same for every call of an invocation and are left to the world. *)
Inductive call : Type :=
| ExecuteModule (module_name module_args : string) (complex_args : option dict)
| TemplateRun (template_body module_args : string) (module_inject : dict).

Definition call_module_name (c : call) : string :=
  match c with
  | ExecuteModule n _ _ => n
  | TemplateRun _ _ _ => "template"
  end.

(** The [module_args] of a call. *)
Definition call_module_args (c : call) : string :=
  match c with
  | ExecuteModule _ a _ => a
  | TemplateRun _ a _ => a
  end.

(** [self.options]: the four recognised keys. *)
Record options_t : Type := mkOptions {
  opt_containers : value;
  opt_data : value;
  opt_images : value;
  opt_role : value
}.

(** The result dictionary handed to [ReturnData]. *)
Record ReturnData : Type := mkReturnData {
  failed : bool;
  changed : bool;
  msg : value
}.

(** [[c["image"] for c in values if "image" in c]], left to right; the
    first element that raises ends the comprehension. *)
Fixpoint images_of (containers : list value) : exn + list value :=
  match containers with
  | [] => inr []
  | container :: rest =>
      match contains "image" container with
      | inl e => inl e
      | inr false => images_of rest
      | inr true =>
          match subscript container "image" with
          | inl e => inl e
          | inr image =>
              match images_of rest with
              | inl e => inl e
              | inr l => inr (image :: l)
              end
          end
      end
  end.

(** ** The plugin *)

Section ActionModule.

(** The target host behind the runner: a call yields the raw result
    dictionary ([module_response.result]) and the next world. *)
Variable World : Type.
Variable respond : World -> call -> dict * World.

(** [ansible.utils.parse_kv]. *)
Variable parse_kv : string -> dict.

(** [str(v)] of a value that is not itself a string. *)
Variable py_str : value -> string.

(** The name of the [NamedTemporaryFile] that holds the template. *)
Variable template_file_name : string.

(** ["{}".format(v)] *)
Definition format_value (v : value) : string :=
  match v with
  | VStr s => s
  | _ => py_str v
  end.

(** The fields of [self] set by [__init__] and [run], the world the
    runner talks to, and the calls made so far with their raw results. *)
Record self_t : Type := mkSelf {
  self_options : option options_t;
  self_changed : bool;
  self_inject : dict;
  world : World;
  trace : list (call * dict)
}.

(** [ActionModule.__init__] on a runner whose host is in world [w];
    [self.inject] is [None] until [run] stores its argument, the empty
    dictionary stands for it. *)
Definition init (w : World) : self_t :=
  {| self_options := None;
     self_changed := false;
     self_inject := [];
     world := w;
     trace := [] |}.

(** *** Methods as state transformers that may raise *)

Definition M (A : Type) : Type := self_t -> (exn + A) * self_t.

Definition ret {A} (a : A) : M A := fun self => (inr a, self).

Definition raise {A} (e : exn) : M A := fun self => (inl e, self).

Definition bind {A B} (m : M A) (f : A -> M B) : M B :=
  fun self =>
    match m self with
    | (inl e, self') => (inl e, self')
    | (inr a, self') => f a self'
    end.

Definition lift {A} (r : exn + A) : M A := fun self => (r, self).

Notation "x <- m ;; k" := (bind m (fun x => k))
  (at level 61, m at next level, right associativity).
Notation "m ;;; k" := (bind m (fun _ => k))
  (at level 61, right associativity).

(** [try: body  except ModuleError as error: handler(error.message)
    else: orelse]; any other exception propagates. *)
Definition try_except {A B} (body : M A) (handler : value -> M B)
           (orelse : M B) : M B :=
  fun self =>
    match body self with
    | (inl (ModuleError message), self') => handler message self'
    | (inl e, self') => (inl e, self')
    | (inr _, self') => orelse self'
    end.

Definition get_changed : M bool := fun self => (inr (self_changed self), self).

Definition set_changed (b : bool) : M unit :=
  fun self =>
    (inr tt, {| self_options := self_options self;
                self_changed := b;
                self_inject := self_inject self;
                world := world self;
                trace := trace self |}).

Definition get_inject : M dict := fun self => (inr (self_inject self), self).

Definition set_inject (inject : dict) : M unit :=
  fun self =>
    (inr tt, {| self_options := self_options self;
                self_changed := self_changed self;
                self_inject := inject;
                world := world self;
                trace := trace self |}).

Definition store_options (o : options_t) : M unit :=
  fun self =>
    (inr tt, {| self_options := Some o;
                self_changed := self_changed self;
                self_inject := self_inject self;
                world := world self;
                trace := trace self |}).

(** [self.options[key]]: [self.options] is [None] until [set_options]. *)
Definition option_field (field : options_t -> value) : M value :=
  fun self =>
    match self_options self with
    | Some o => (inr (field o), self)
    | None => (inl TypeError, self)
    end.

(** One round trip to the target host. *)
Definition perform (c : call) : M dict :=
  fun self =>
    let (result, w) := respond (world self) c in
    (inr result, {| self_options := self_options self;
                    self_changed := self_changed self;
                    self_inject := self_inject self;
                    world := w;
                    trace := trace self ++ [(c, result)] |}).

(** *** Properties *)

Definition role : M value := option_field opt_role.
Definition data : M value := option_field opt_data.
Definition images_state : M value := option_field opt_images.
Definition containers_state : M value := option_field opt_containers.

Definition docker_compose_directory : M string :=
  r <- role ;; ret ("/etc/docker-compose/" ++ format_value r).

Definition docker_compose_file : M string :=
  d <- docker_compose_directory ;; ret (d ++ "/docker-compose.yml").

Definition images : M (list value) :=
  d <- data ;;
  match d with
  | VDict entries => lift (images_of (dict_values entries))
  | _ => raise AttributeError
  end.

(** *** handle_module_result *)

(** The three locals [changed], [failed] and [msg]. *)
Definition result_changed (result : dict) : value :=
  dict_get "changed" (VBool false) result.

Definition result_failed (result : dict) : value :=
  dict_get "failed" (VBool false) result.

Definition result_msg (result : dict) : value :=
  dict_get "msg" (dict_get "stderr" (VStr "") result) result.

Definition handle_module_result (result : dict) : M dict :=
  let changed := result_changed result in
  let failed := result_failed result in
  let msg := result_msg result in
  (if truthy changed then set_changed true else ret tt) ;;;
  (if truthy failed then raise (ModuleError msg) else ret tt) ;;;
  ret result.

Definition execute_module (module_name module_args : string)
           (complex_args : option dict) : M dict :=
  result <- perform (ExecuteModule module_name module_args complex_args) ;;
  handle_module_result result.

(** *** Operations on the target host *)

Definition create_docker_compose_configuration_directory : M dict :=
  d <- docker_compose_directory ;;
  execute_module "file" ("path=" ++ d ++ " state=directory") None.

Definition remove_docker_compose_configuration_directory : M dict :=
  d <- docker_compose_directory ;;
  execute_module "file" ("path=" ++ d ++ " state=absent") None.

(** The line written to the temporary template file. *)
Definition template_body : string :=
  "{{ data|to_nice_yaml }}" ++ String (ascii_of_nat 10) "".

Definition create_docker_compose_file : M dict :=
  f <- docker_compose_file ;;
  let module_args := "src=" ++ template_file_name ++ " dest=" ++ f in
  inject <- get_inject ;;
  d <- data ;;
  let module_inject := dict_set "data" d inject in
  result <- perform (TemplateRun template_body module_args module_inject) ;;
  handle_module_result result.

Definition has_docker_compose_file : M value :=
  f <- docker_compose_file ;;
  result <- execute_module "stat" ("path=" ++ f) None ;;
  stat <- lift (subscript (VDict result) "stat") ;;
  lift (subscript stat "exists").

Definition remove_docker_compose_file : M dict :=
  f <- docker_compose_file ;;
  execute_module "file" ("path=" ++ f ++ " state=absent") None.

Definition create_docker_compose_containers : M dict :=
  f <- docker_compose_file ;;
  cs <- containers_state ;;
  execute_module "docker-compose"
    ("path=" ++ f ++ " state=started force="
       ++ (if in_strs cs [RESTARTED] then "true" else "false"))
    None.

Definition remove_docker_compose_containers : M dict :=
  f <- docker_compose_file ;;
  execute_module "docker-compose"
    ("path=" ++ f ++ " state=absent force=true") None.

Definition pull_images : M dict :=
  st <- images_state ;;
  imgs <- images ;;
  execute_module "docker-images" ("state=" ++ format_value st)
    (Some [("images", VList imgs)]).

Definition remove_images : M dict :=
  st <- images_state ;;
  imgs <- images ;;
  execute_module "docker-images" ("state=" ++ format_value st)
    (Some [("images", VList imgs)]).

(** *** set_options *)

(** [parsed_args] after the optional [update]. *)
Definition merged_args (module_args : string) (complex_args : option dict)
  : dict :=
  let parsed_args := parse_kv module_args in
  match complex_args with
  | Some (kv :: more) => dict_update parsed_args (kv :: more)
  | _ => parsed_args
  end.

(** [{key: parsed_args.get(key) for key in [...]}] *)
Definition options_of (parsed_args : dict) : options_t :=
  {| opt_containers := dict_get "containers" VNone parsed_args;
     opt_data := dict_get "data" VNone parsed_args;
     opt_images := dict_get "images" VNone parsed_args;
     opt_role := dict_get "role" VNone parsed_args |}.

Definition set_options (module_args : string) (complex_args : option dict)
  : M unit :=
  store_options (options_of (merged_args module_args complex_args)) ;;;
  r <- option_field opt_role ;;
  (if negb (truthy r)
   then raise (ModuleError (VStr "role is required"))
   else ret tt) ;;;
  d <- data ;;
  (if negb (truthy d)
   then raise (ModuleError (VStr "data is required"))
   else ret tt).

(** *** run *)

(** The body of the [try] statement. *)
Definition run_steps (module_args : string) (complex_args : option dict)
  : M unit :=
  set_options module_args complex_args ;;;
  ist <- images_state ;;
  (if in_strs ist [PRESENT; LATEST]
   then pull_images ;;; ret tt
   else ret tt) ;;;
  cst <- containers_state ;;
  (if in_strs cst [ABSENT]
   then
     present <- has_docker_compose_file ;;
     (if truthy present
      then remove_docker_compose_containers ;;;
           remove_docker_compose_file ;;; ret tt
      else ret tt) ;;;
     remove_docker_compose_configuration_directory ;;; ret tt
   else
     cst' <- containers_state ;;
     if in_strs cst' [PRESENT; STARTED; RESTARTED]
     then
       create_docker_compose_configuration_directory ;;;
       create_docker_compose_file ;;;
       cst'' <- containers_state ;;
       (if in_strs cst'' [STARTED; RESTARTED]
        then create_docker_compose_containers ;;; ret tt
        else ret tt)
     else ret tt) ;;;
  ist' <- images_state ;;
  (if in_strs ist' [ABSENT]
   then remove_images ;;; ret tt
   else ret tt).

(** [check] is [self.runner.check]. *)
Definition run (check : bool) (inject : dict) (module_args : string)
           (complex_args : option dict) : M ReturnData :=
  set_inject inject ;;;
  if check
  then
    c <- get_changed ;;
    ret {| failed := false; changed := c; msg := VStr "ok" |}
  else
    try_except
      (run_steps module_args complex_args)
      (fun message =>
         c <- get_changed ;;
         ret {| failed := true; changed := c; msg := message |})
      (c <- get_changed ;;
       ret {| failed := false; changed := c; msg := VStr "ok" |}).

(** One invocation: a fresh [ActionModule], then [run]. *)
Definition invoke (w : World) (check : bool) (inject : dict)
           (module_args : string) (complex_args : option dict)
  : (exn + ReturnData) * self_t :=
  run check inject module_args complex_args (init w).

(** *** The calls of the operations, by name

    [directory_of] and [file_of] are the two path properties as functions
    of the role; the others are the calls the operations above make. *)

Definition directory_of (r : value) : string :=
  "/etc/docker-compose/" ++ format_value r.

Definition file_of (r : value) : string :=
  directory_of r ++ "/docker-compose.yml".

Definition create_directory_call (r : value) : call :=
  ExecuteModule "file" ("path=" ++ directory_of r ++ " state=directory") None.

Definition remove_directory_call (r : value) : call :=
  ExecuteModule "file" ("path=" ++ directory_of r ++ " state=absent") None.

Definition template_call (inject : dict) (r d : value) : call :=
  TemplateRun template_body
    ("src=" ++ template_file_name ++ " dest=" ++ file_of r)
    (dict_set "data" d inject).

Definition stat_call (r : value) : call :=
  ExecuteModule "stat" ("path=" ++ file_of r) None.

Definition remove_file_call (r : value) : call :=
  ExecuteModule "file" ("path=" ++ file_of r ++ " state=absent") None.

Definition containers_call (r : value) (force : bool) : call :=
  ExecuteModule "docker-compose"
    ("path=" ++ file_of r ++ " state=started force="
       ++ (if force then "true" else "false"))
    None.

Definition remove_containers_call (r : value) : call :=
  ExecuteModule "docker-compose"
    ("path=" ++ file_of r ++ " state=absent force=true") None.

Definition images_call (st : value) (imgs : list value) : call :=
  ExecuteModule "docker-images" ("state=" ++ format_value st)
    (Some [("images", VList imgs)]).

End ActionModule.

Arguments init {World} w.
Arguments self_options {World} s.
Arguments self_changed {World} s.
Arguments self_inject {World} s.
Arguments world {World} s.
Arguments trace {World} s.
Arguments mkSelf {World}.
Arguments ret {World A} a _.
Arguments raise {World A} e _.
Arguments bind {World A B} m f _.
Arguments lift {World A} r _.
Arguments try_except {World A B} body handler orelse _.

Open Scope list_scope.

(** ** Reading a trace *)

Definition event : Type := call * dict.

Definition calls (t : list event) : list call := map fst t.

(** The raw result makes [handle_module_result] raise. *)
Definition reports_failure (e : event) : bool :=
  truthy (dict_get "failed" (VBool false) (snd e)).

(** The raw result makes [handle_module_result] set [self.changed]. *)
Definition reports_change (e : event) : bool :=
  truthy (dict_get "changed" (VBool false) (snd e)).

(** [c1] occurs strictly before [c2]. *)
Definition precedes (c1 c2 : call) (l : list call) : Prop :=
  exists l1 l2 l3, l = l1 ++ c1 :: l2 ++ c2 :: l3.

(** ** Well-formed arguments *)

Definition is_dict (v : value) : bool :=
  match v with
  | VDict _ => true
  | _ => false
  end.

(** Compose data: a non-empty mapping whose entries are mappings. *)
Definition compose_data (v : value) : bool :=
  match v with
  | VDict (kv :: more) => forallb is_dict (dict_values (kv :: more))
  | _ => false
  end.

(** The value of the [images] property on compose data. *)
Definition image_list (v : value) : list value :=
  match v with
  | VDict d =>
      match images_of (dict_values d) with
      | inr l => l
      | inl _ => []
      end
  | _ => []
  end.

(** No entry of the mapping has an ["image"] key. *)
Definition no_image_field (v : value) : bool :=
  match v with
  | VDict d =>
      forallb (fun c => match c with
                        | VDict e =>
                            match dict_lookup "image" e with
                            | Some _ => false
                            | None => true
                            end
                        | _ => false
                        end) (dict_values d)
  | _ => false
  end.

(** [result["stat"]["exists"]] *)
Definition stat_exists (result : dict) : exn + value :=
  match subscript (VDict result) "stat" with
  | inl e => inl e
  | inr st => subscript st "exists"
  end.

(** ** A scripted host

    The world is the list of raw results still to be given, one per call,
    whatever the call; an exhausted script answers with the empty result. *)

Definition script : Type := list dict.

Definition scripted (w : script) (c : call) : dict * script :=
  match w with
  | [] => ([], [])
  | r :: w' => (r, w')
  end.

(** Arguments are passed as complex arguments only. *)
Definition no_kv (module_args : string) : dict := [].

Definition str_unused (v : value) : string := "".

Definition tmp_name : string := "/tmp/tmpXYZ".

Definition scripted_invoke (w : script) (check : bool)
           (complex_args : option dict) :=
  invoke script scripted no_kv str_unused tmp_name w check [] ""
    complex_args.

Definition nginx_data : value :=
  VDict [("nginx", VDict [("image", VStr "nginx:latest");
                          ("ports", VList [VStr "80:80"])])].

Definition nginx_args (images containers : string) : option dict :=
  Some [("role", VStr "nginx"); ("data", nginx_data);
        ("images", VStr images); ("containers", VStr containers)].

Definition r_ok : dict := [("changed", VBool false)].
Definition r_changed : dict := [("changed", VBool true)].
Definition r_failed : dict := [("failed", VBool true); ("msg", VStr "boom")].
Definition r_changed_failed : dict :=
  [("changed", VBool true); ("failed", VBool true); ("msg", VStr "boom")].
Definition r_stat (b : bool) : dict :=
  [("changed", VBool false); ("stat", VDict [("exists", VBool b)])].

(** Compose data without any "image" entry. *)
Definition plain_data : value :=
  VDict [("web", VDict [("ports", VList [VStr "80:80"])])].

Definition plain_args (images containers : string) : option dict :=
  Some [("role", VStr "web"); ("data", plain_data);
        ("images", VStr images); ("containers", VStr containers)].

(** [self.options] of a scripted invocation. *)
Definition scripted_options (complex_args : option dict) : options_t :=
  options_of (merged_args no_kv "" complex_args).

(** Some invocations on the scripted host. *)

Definition no_role_run :=
  scripted_invoke [] false None.

Definition no_role_check_run :=
  scripted_invoke [] true None.

Definition restart_run :=
  scripted_invoke [r_changed; r_ok; r_ok; r_changed] false
    (nginx_args "latest" "restarted").

Definition teardown_run :=
  scripted_invoke [r_stat true; r_changed; r_changed; r_changed; r_changed]
    false (nginx_args "absent" "absent").

Definition nothing_to_remove_run :=
  scripted_invoke [r_ok; r_stat false; r_ok] false
    (nginx_args "latest" "absent").

Definition failed_pull_run :=
  scripted_invoke [r_failed] false (nginx_args "latest" "started").

Definition changed_failed_pull_run :=
  scripted_invoke [r_changed_failed] false (nginx_args "latest" "started").

Definition plain_present_run :=
  scripted_invoke [r_ok; r_ok; r_ok; r_ok] false
    (plain_args "present" "started").

Definition plain_failed_stat_run :=
  scripted_invoke [r_failed] false (plain_args "absent" "absent").

Definition nginx_pull : call :=
  ExecuteModule "docker-images" "state=latest"
    (Some [("images", VList [VStr "nginx:latest"])]).

Definition nginx_stat : call :=
  ExecuteModule "stat" "path=/etc/docker-compose/nginx/docker-compose.yml"
    None.

Definition nginx_remove_directory : call :=
  ExecuteModule "file" "path=/etc/docker-compose/nginx state=absent" None.

(** More invocations on the scripted host. *)

Definition nginx_pairs (images containers : string) : dict :=
  [("role", VStr "nginx"); ("data", nginx_data);
   ("images", VStr images); ("containers", VStr containers)].

Definition no_data_run :=
  scripted_invoke [] false (Some [("role", VStr "nginx")]).

Definition idle_args : option dict :=
  Some [("role", VStr "nginx"); ("data", nginx_data)].

Definition idle_run := scripted_invoke [r_changed] false idle_args.

Definition started_run :=
  scripted_invoke [r_changed; r_ok; r_ok; r_ok] false
    (nginx_args "latest" "started").

Definition bad_stat_run :=
  scripted_invoke [r_ok; r_ok] false (nginx_args "latest" "absent").

Definition broken_args : option dict :=
  Some [("role", VStr "web"); ("data", VDict [("web", VNone)]);
        ("images", VStr "latest")].

Definition broken_run := scripted_invoke [r_ok] false broken_args.

Definition nginx_remove_containers : call :=
  ExecuteModule "docker-compose"
    "path=/etc/docker-compose/nginx/docker-compose.yml state=absent force=true"
    None.

Definition nginx_remove_file : call :=
  ExecuteModule "file"
    "path=/etc/docker-compose/nginx/docker-compose.yml state=absent" None.

Definition nginx_directory : call :=
  ExecuteModule "file" "path=/etc/docker-compose/nginx state=directory" None.

Definition nginx_template : call :=
  TemplateRun template_body
    "src=/tmp/tmpXYZ dest=/etc/docker-compose/nginx/docker-compose.yml"
    [("data", nginx_data)].

Definition nginx_start (force : bool) : call :=
  ExecuteModule "docker-compose"
    ("path=/etc/docker-compose/nginx/docker-compose.yml state=started force="
       ++ (if force then "true" else "false"))
    None.

Definition removal_stopped_run :=
  scripted_invoke [r_stat true; r_ok; r_failed] false
    (Some (nginx_pairs "keep" "absent")).

Definition partial_removal_run :=
  scripted_invoke [r_stat true; r_failed] false
    (Some (nginx_pairs "keep" "absent")).

(** A [parse_kv] that finds a role and an image state. *)
Definition kv_role_a (module_args : string) : dict :=
  [("role", VStr "a"); ("images", VStr "latest")].

(** ** One handled call, in closed form *)

(** [self] after the raw result [r] of call [c] has been handled. *)
Definition after_result {World} (c : call) (r : dict) (w : World)
           (s : self_t World) : self_t World :=
  {| self_options := self_options s;
     self_changed := self_changed s || reports_change (c, r);
     self_inject := self_inject s;
     world := w;
     trace := trace s ++ [(c, r)] |}.

(** A round trip followed by [handle_module_result]. *)
Definition handled {World} (respond : World -> call -> dict * World)
           (c : call) : M World dict :=
  fun s =>
    let (r, w) := respond (world s) c in
    (if reports_failure (c, r)
     then inl (ModuleError (result_msg r))
     else inr r,
     after_result c r w s).

(** ** Accounting for the calls of a computation *)

Definition any_change (t : list event) : bool := existsb reports_change t.

Definition no_failure (t : list event) : bool :=
  forallb (fun e => negb (reports_failure e)) t.

(** From [s] to [s'] the events [new] were appended and their change
    reports were or-ed into [self.changed]. *)
Definition accounted {World} (s s' : self_t World) (new : list event)
  : Prop :=
  trace s' = trace s ++ new /\
  self_changed s' = self_changed s || any_change new.

(** Either no event of [new] reports failure, or the last one is the only
    one that does and [res] is the [ModuleError] raised for it. *)
Definition stops_at_failure {A} (res : exn + A) (new : list event) : Prop :=
  no_failure new = true \/
  exists l e,
    new = l ++ [e] /\ no_failure l = true /\ reports_failure e = true /\
    res = inl (ModuleError (dict_get "msg"
                              (dict_get "stderr" (VStr "") (snd e)) (snd e))).

Definition sound {World A} (m : M World A) : Prop :=
  forall s res s',
    m s = (res, s') ->
    exists new, accounted s s' new /\ stops_at_failure res new.

(** The calls of the container-removal sequence, given whether the stat
    call found the file. *)
Definition removal_calls (stat rm_containers rm_file rm_dir : call)
           (file_exists : bool) : list call :=
  stat :: (if file_exists then [rm_containers; rm_file] else []) ++ [rm_dir].

(** ** The plan of a run

    The calls [run] goes through on validated options when nothing stops
    it, given whether the stat call finds the file: the pull, the branch of
    the containers, the image removal. *)
Definition plan (py_str : value -> string) (template_file_name : string)
           (inject : dict) (o : options_t) (file_exists : bool) : list call :=
  let rl := opt_role o in
  let images :=
    images_call py_str (opt_images o) (image_list (opt_data o)) in
  (if in_strs (opt_images o) [PRESENT; LATEST] then [images] else []) ++
  (if in_strs (opt_containers o) [ABSENT]
   then removal_calls (stat_call py_str rl)
          (remove_containers_call py_str rl) (remove_file_call py_str rl)
          (remove_directory_call py_str rl) file_exists
   else if in_strs (opt_containers o) [PRESENT; STARTED; RESTARTED]
        then create_directory_call py_str rl
             :: template_call py_str template_file_name inject rl (opt_data o)
             :: (if in_strs (opt_containers o) [STARTED; RESTARTED]
                 then [containers_call py_str rl
                         (in_strs (opt_containers o) [RESTARTED])]
                 else [])
        else []) ++
  (if in_strs (opt_images o) [ABSENT] then [images] else []).

(** A computation leaves [self.inject] alone, and raises [ModuleError] only
    for the failure report of the last event of the trace. *)
Definition disciplined {World A} (m : M World A) : Prop :=
  forall s res s',
    m s = (res, s') ->
    self_inject s' = self_inject s /\
    forall message,
      res = inl (ModuleError message) ->
      exists l e,
        trace s' = l ++ [e] /\ reports_failure e = true /\
        message = dict_get "msg" (dict_get "stderr" (VStr "") (snd e)) (snd e).

(** * Properties *)

Section Properties.

Variable World : Type.
Variable respond : World -> call -> dict * World.
Variable parse_kv : string -> dict.
Variable py_str : value -> string.
Variable template_file_name : string.

Local Abbreviation invokeW :=
  (invoke World respond parse_kv py_str template_file_name).
Local Abbreviation options_in ma ca :=
  (options_of (merged_args parse_kv ma ca)).

(** *** Handling a result *)

Lemma handle_module_result_eq (r : dict) (s : self_t World) :
  handle_module_result World r s =
  (if truthy (result_failed r)
   then inl (ModuleError (result_msg r))
   else inr r,
   {| self_options := self_options s;
      self_changed := self_changed s || truthy (result_changed r);
      self_inject := self_inject s;
      world := world s;
      trace := trace s |}).
Proof.
  unfold handle_module_result, bind, set_changed, ret, raise.
  destruct s as [o ch inj w t]; cbn.
  destruct (truthy (result_changed r)), (truthy (result_failed r)); cbn;
    rewrite ?orb_true_r, ?orb_false_r; reflexivity.
Qed.

Lemma perform_handled (c : call) (s : self_t World) :
  bind (perform World respond c) (handle_module_result World) s =
  handled respond c s.
Proof.
  unfold bind, perform, handled.
  destruct (respond (world s) c) as [r w].
  rewrite handle_module_result_eq. reflexivity.
Qed.

(** *** Every operation accounts for its calls *)

Lemma accounted_nil (s : self_t World) : accounted s s [].
Proof.
  split; [symmetry; apply app_nil_r | symmetry; apply orb_false_r].
Qed.

Lemma sound_pure {A} (m : M World A) :
  (forall s, snd (m s) = s) -> sound m.
Proof.
  intros H s res s' E. exists []. split.
  - specialize (H s). rewrite E in H. cbn in H. subst s'. apply accounted_nil.
  - left. reflexivity.
Qed.

Lemma sound_ret {A} (a : A) : sound (@ret World A a).
Proof. apply sound_pure. reflexivity. Qed.

Lemma sound_raise {A} (e : exn) : sound (@raise World A e).
Proof. apply sound_pure. reflexivity. Qed.

Lemma sound_lift {A} (r : exn + A) : sound (@lift World A r).
Proof. apply sound_pure. reflexivity. Qed.

Lemma sound_option_field f : sound (option_field World f).
Proof.
  apply sound_pure. intros s. unfold option_field.
  destruct (self_options s); reflexivity.
Qed.

Lemma sound_get_inject : sound (get_inject World).
Proof. apply sound_pure. reflexivity. Qed.

Lemma sound_store_options o : sound (store_options World o).
Proof.
  intros s res s' E. unfold store_options in E. inversion E; subst.
  exists []. split; [|left; reflexivity].
  split; cbn; [symmetry; apply app_nil_r | symmetry; apply orb_false_r].
Qed.

Lemma no_failure_app (l1 l2 : list event) :
  no_failure (l1 ++ l2) = no_failure l1 && no_failure l2.
Proof. apply forallb_app. Qed.

Lemma any_change_app (l1 l2 : list event) :
  any_change (l1 ++ l2) = any_change l1 || any_change l2.
Proof. apply existsb_app. Qed.

Lemma sound_bind {A B} (m : M World A) (f : A -> M World B) :
  sound m -> (forall a, sound (f a)) -> sound (bind m f).
Proof.
  intros Hm Hf s res s' E. unfold bind in E.
  destruct (m s) as [[e|a] s1] eqn:E1.
  - inversion E; subst.
    destruct (Hm _ _ _ E1) as (new & Hacc & Hstop).
    exists new. split; [exact Hacc|].
    destruct Hstop as [Hok|(l & ev & -> & Hl & Hev & Hres)].
    + left; exact Hok.
    + right. exists l, ev. repeat split; auto. congruence.
  - destruct (Hm _ _ _ E1) as (new1 & [Ht1 Hc1] & Hstop1).
    destruct (Hf a _ _ _ E) as (new2 & [Ht2 Hc2] & Hstop2).
    assert (Hok1 : no_failure new1 = true).
    { destruct Hstop1 as [Hok|(l & ev & _ & _ & _ & Hres)];
        [exact Hok | discriminate]. }
    exists (new1 ++ new2). split.
    + split.
      * rewrite Ht2, Ht1. symmetry. apply app_assoc.
      * rewrite Hc2, Hc1, any_change_app. symmetry. apply orb_assoc.
    + destruct Hstop2 as [Hok|(l & ev & -> & Hl & Hev & Hres)].
      * left. rewrite no_failure_app, Hok1, Hok. reflexivity.
      * right. exists (new1 ++ l), ev. repeat split; auto.
        -- apply app_assoc.
        -- rewrite no_failure_app, Hok1, Hl. reflexivity.
Qed.

Lemma sound_if {A} (b : bool) (m1 m2 : M World A) :
  sound m1 -> sound m2 -> sound (if b then m1 else m2).
Proof. destruct b; auto. Qed.

Lemma sound_handled (c : call) : sound (handled respond c).
Proof.
  intros s res s' E. unfold handled in E.
  destruct (respond (world s) c) as [r w]. inversion E; subst; clear E.
  exists [(c, r)]. split.
  - split; cbn; [reflexivity|]. rewrite orb_false_r. reflexivity.
  - destruct (reports_failure (c, r)) eqn:F.
    + right. exists [], (c, r). repeat split; auto.
    + left. cbn. rewrite F. reflexivity.
Qed.

Lemma sound_perform_handle (c : call) :
  sound (bind (perform World respond c)
           (fun result => handle_module_result World result)).
Proof.
  intros s res s' E.
  change (bind (perform World respond c) (handle_module_result World) s
          = (res, s')) in E.
  rewrite perform_handled in E. exact (sound_handled c _ _ _ E).
Qed.

Lemma sound_execute_module n a ca :
  sound (execute_module World respond n a ca).
Proof. apply sound_perform_handle. Qed.

(** *** The operations are sound *)

Create HintDb sound.

#[local] Hint Resolve sound_ret sound_raise sound_lift sound_option_field
  sound_get_inject sound_store_options sound_execute_module
  sound_perform_handle : sound.

Ltac sound_steps :=
  repeat first
    [ solve [auto with sound]
    | apply sound_bind; [|intros]
    | apply sound_if
    | match goal with
      | |- sound (match ?v with _ => _ end) => destruct v
      end ].

Lemma sound_docker_compose_directory :
  sound (docker_compose_directory World py_str).
Proof. unfold docker_compose_directory, role. sound_steps. Qed.

Lemma sound_docker_compose_file : sound (docker_compose_file World py_str).
Proof.
  unfold docker_compose_file.
  apply sound_bind; [apply sound_docker_compose_directory|intros].
  apply sound_ret.
Qed.

Lemma sound_images : sound (images World).
Proof. unfold images, data. sound_steps. Qed.

#[local] Hint Resolve sound_docker_compose_directory
  sound_docker_compose_file sound_images : sound.

Lemma sound_create_directory :
  sound (create_docker_compose_configuration_directory World respond py_str).
Proof. unfold create_docker_compose_configuration_directory. sound_steps. Qed.

Lemma sound_remove_directory :
  sound (remove_docker_compose_configuration_directory World respond py_str).
Proof. unfold remove_docker_compose_configuration_directory. sound_steps. Qed.

Lemma sound_create_file :
  sound (create_docker_compose_file World respond py_str template_file_name).
Proof. unfold create_docker_compose_file, data. sound_steps. Qed.

Lemma sound_has_file :
  sound (has_docker_compose_file World respond py_str).
Proof. unfold has_docker_compose_file. sound_steps. Qed.

Lemma sound_remove_file :
  sound (remove_docker_compose_file World respond py_str).
Proof. unfold remove_docker_compose_file. sound_steps. Qed.

Lemma sound_create_containers :
  sound (create_docker_compose_containers World respond py_str).
Proof.
  unfold create_docker_compose_containers, containers_state. sound_steps.
Qed.

Lemma sound_remove_containers :
  sound (remove_docker_compose_containers World respond py_str).
Proof. unfold remove_docker_compose_containers. sound_steps. Qed.

Lemma sound_pull_images : sound (pull_images World respond py_str).
Proof. unfold pull_images, images_state. sound_steps. Qed.

Lemma sound_remove_images : sound (remove_images World respond py_str).
Proof. unfold remove_images, images_state. sound_steps. Qed.

Lemma sound_set_options ma ca : sound (set_options World parse_kv ma ca).
Proof. unfold set_options, data. sound_steps. Qed.

#[local] Hint Resolve sound_create_directory sound_remove_directory
  sound_create_file sound_has_file sound_remove_file sound_create_containers
  sound_remove_containers sound_pull_images sound_remove_images
  sound_set_options : sound.

Lemma sound_run_steps ma ca :
  sound (run_steps World respond parse_kv py_str template_file_name ma ca).
Proof. unfold run_steps, images_state, containers_state. sound_steps. Qed.

(** *** The outcome of an invocation against its trace *)

Lemma failure_is_last (l1 l2 l : list event) (x e : event) :
  l1 ++ x :: l2 = l ++ [e] ->
  no_failure l = true ->
  reports_failure x = true ->
  l1 = l /\ x = e /\ l2 = [].
Proof.
  revert l. induction l1 as [|a l1 IH]; intros l E Hl Hx.
  - destruct l as [|y l]; cbn in E.
    + inversion E. auto.
    + inversion E; subst y. cbn in Hl. rewrite Hx in Hl. discriminate.
  - destruct l as [|y l]; cbn in E.
    + inversion E. destruct l1; discriminate.
    + inversion E; subst y. cbn in Hl.
      apply andb_true_iff in Hl. destruct Hl as [_ Hl].
      destruct (IH l H1 Hl Hx) as (-> & -> & ->). auto.
Qed.

Lemma no_failure_In (l : list event) (e : event) :
  no_failure l = true -> In e l -> reports_failure e = false.
Proof.
  unfold no_failure. rewrite forallb_forall. intros H Hin.
  apply negb_true_iff. apply H. exact Hin.
Qed.

Lemma invoke_accounted w check inject ma ca outcome self :
  invokeW w check inject ma ca = (outcome, self) ->
  self_changed self = any_change (trace self) /\
  match outcome with
  | inr rd => changed rd = any_change (trace self)
  | inl _ => True
  end /\
  (no_failure (trace self) = true \/
   exists l e,
     trace self = l ++ [e] /\ no_failure l = true /\
     reports_failure e = true /\
     outcome = inr {| failed := true;
                      changed := any_change (trace self);
                      msg := result_msg (snd e) |}).
Proof.
  intros E. unfold invoke, run in E. destruct check.
  - cbn in E. injection E as <- <-. cbn. auto.
  - cbv beta iota delta [bind set_inject init self_options self_changed
                           world trace] in E.
    unfold try_except in E.
    match type of E with
    | context [run_steps _ _ _ _ _ _ _ ?s0] =>
        destruct (run_steps World respond parse_kv py_str template_file_name
                    ma ca s0) as [[e|u] s1] eqn:E1
    end;
      destruct (sound_run_steps _ _ _ _ _ E1) as (new & [Ht Hc] & Hstop);
      cbn in Ht, Hc.
    + destruct Hstop as [Hok|(l & ev & -> & Hl & Hev & Hres)].
      * destruct e; cbn in E; injection E as <- <-; cbn;
          rewrite Ht, Hc; auto.
      * injection Hres as ->. cbn in E. injection E as <- <-. cbn.
        rewrite Ht, Hc.
        repeat split; auto. right. exists l, ev. auto.
    + assert (Hok : no_failure new = true).
      { destruct Hstop as [Hok|(l & ev & _ & _ & _ & Hres)];
          [exact Hok | discriminate]. }
      cbn in E. injection E as <- <-. cbn. rewrite Ht, Hc. auto.
Qed.

Lemma invoke_failure w check inject ma ca outcome self l1 c r l2 :
  invokeW w check inject ma ca = (outcome, self) ->
  trace self = l1 ++ (c, r) :: l2 ->
  reports_failure (c, r) = true ->
  l2 = [] /\ no_failure l1 = true /\
  outcome = inr {| failed := true;
                   changed := any_change (l1 ++ [(c, r)]);
                   msg := result_msg r |}.
Proof.
  intros E Ht Hf.
  destruct (invoke_accounted _ _ _ _ _ _ _ E) as (_ & _ & H).
  destruct H as [Hok|(l & e & Hl & Hnf & He & Hout)].
  - rewrite Ht in Hok.
    assert (Hin : In (c, r) (l1 ++ (c, r) :: l2))
      by (apply in_or_app; right; left; reflexivity).
    rewrite (no_failure_In _ _ Hok Hin) in Hf. discriminate.
  - rewrite Ht in Hl.
    destruct (failure_is_last _ _ _ _ _ Hl Hnf Hf) as (-> & <- & ->).
    rewrite Hout, Ht. auto.
Qed.

(** *** Check mode and validation *)

(** C1: with check mode on, whatever the arguments (so also without role
    or data), the invocation returns failed=false, changed=false, msg="ok",
    and no call is made: the trace is empty and the world is untouched. *)
Theorem check_mode_short_circuit (w : World) (inject : dict) (ma : string)
        (ca : option dict) :
  fst (invokeW w true inject ma ca)
  = inr {| failed := false; changed := false; msg := VStr "ok" |} /\
  trace (snd (invokeW w true inject ma ca)) = [] /\
  world (snd (invokeW w true inject ma ca)) = w.
Proof. repeat split. Qed.

(** C2, amended: outside check mode, when the role of the merged arguments
    is absent or empty, the invocation returns failed=true, changed=false,
    msg="role is required", and no call is made before it. *)
Theorem missing_role_is_rejected (w : World) (inject : dict) (ma : string)
        (ca : option dict) :
  truthy (dict_get "role" VNone (merged_args parse_kv ma ca)) = false ->
  fst (invokeW w false inject ma ca)
  = inr {| failed := true; changed := false;
           msg := VStr "role is required" |} /\
  trace (snd (invokeW w false inject ma ca)) = [] /\
  world (snd (invokeW w false inject ma ca)) = w.
Proof.
  intros H.
  unfold invoke, run, run_steps, set_options.
  cbv beta iota delta [bind try_except set_inject store_options option_field
                         init self_options self_changed world trace
                         self_inject options_of opt_role].
  rewrite H. cbn. auto.
Qed.

(** *** Results of the primitives *)

(** C8: of a raw result, [changed] is the "changed" entry or False when
    there is none, [failed] the "failed" entry or False, and [msg] the
    "msg" entry, else the "stderr" entry, else the empty string; handling
    the result ors the truth of [changed] into [self.changed] and raises
    [ModuleError(msg)] exactly when [failed] is true. *)
Theorem normalisation_defaults (result : dict) (s : self_t World) :
  result_changed result
  = match dict_lookup "changed" result with
    | Some v => v
    | None => VBool false
    end /\
  result_failed result
  = match dict_lookup "failed" result with
    | Some v => v
    | None => VBool false
    end /\
  result_msg result
  = match dict_lookup "msg" result with
    | Some m => m
    | None =>
        match dict_lookup "stderr" result with
        | Some e => e
        | None => VStr ""
        end
    end /\
  fst (handle_module_result World result s)
  = (if truthy (result_failed result)
     then inl (ModuleError (result_msg result))
     else inr result) /\
  self_changed (snd (handle_module_result World result s))
  = self_changed s || truthy (result_changed result).
Proof.
  rewrite handle_module_result_eq.
  unfold result_changed, result_failed, result_msg, dict_get.
  repeat split.
Qed.

(** *** The changed flag *)

(** C7: [self.changed] is False on a fresh plugin; handling a result sets
    it to its old value or-ed with the result's change report; the steps of
    a run never lower it; and when the invocation ends it, and with it the
    [changed] of the outcome, is the disjunction of the change reports of
    all the results handled. *)
Theorem changed_accumulates (w : World) (check : bool) (inject : dict)
        (ma : string) (ca : option dict) (r : dict) (s : self_t World) :
  self_changed (init w) = false /\
  self_changed (snd (handle_module_result World r s))
  = self_changed s || truthy (result_changed r) /\
  Bool.le (self_changed s)
    (self_changed
       (snd (run_steps World respond parse_kv py_str template_file_name
               ma ca s))) /\
  self_changed (snd (invokeW w check inject ma ca))
  = any_change (trace (snd (invokeW w check inject ma ca))) /\
  match fst (invokeW w check inject ma ca) with
  | inr rd =>
      changed rd = any_change (trace (snd (invokeW w check inject ma ca)))
  | inl _ => True
  end.
Proof.
  split; [reflexivity|].
  split; [rewrite handle_module_result_eq; reflexivity|].
  split.
  - destruct (run_steps World respond parse_kv py_str template_file_name
                ma ca s) as [res s'] eqn:E.
    destruct (sound_run_steps _ _ _ _ _ E) as (new & [_ Hc] & _).
    cbn. rewrite Hc. destruct (self_changed s); cbn; auto.
  - destruct (invokeW w check inject ma ca) as [outcome self] eqn:E.
    destruct (invoke_accounted _ _ _ _ _ _ _ E) as (H1 & H2 & _).
    cbn. auto.
Qed.

(** *** Failure *)

(** C6: outside check mode, a result that reports failure is the last
    event of the trace and no earlier result reports failure; the outcome
    has failed=true, that result's message, and as [changed] the
    disjunction of the change reports up to and including it.  So when the
    first call (the image pull, when images are to be present or latest)
    fails without reporting a change, [changed] is False. *)
Theorem first_failure_aborts (w : World) (inject : dict) (ma : string)
        (ca : option dict) (outcome : exn + ReturnData) (self : self_t World)
        (l1 l2 : list event) (c : call) (r : dict) :
  invokeW w false inject ma ca = (outcome, self) ->
  trace self = l1 ++ (c, r) :: l2 ->
  reports_failure (c, r) = true ->
  l2 = [] /\
  no_failure l1 = true /\
  outcome = inr {| failed := true;
                   changed := any_change (l1 ++ [(c, r)]);
                   msg := result_msg r |} /\
  (l1 = [] -> reports_change (c, r) = false ->
   outcome = inr {| failed := true; changed := false;
                    msg := result_msg r |}).
Proof.
  intros E Ht Hf.
  destruct (invoke_failure _ _ _ _ _ _ _ _ _ _ _ E Ht Hf) as (H1 & H2 & H3).
  repeat split; auto.
  intros -> Hc. rewrite H3. cbn. rewrite Hc. reflexivity.
Qed.

(** C9: a result that reports both a change and a failure makes
    [handle_module_result] set [self.changed] before it raises, so the
    outcome of the invocation has failed=true and changed=true, also when
    that result is the first and only one. *)
Theorem change_kept_on_failure (w : World) (check : bool) (inject : dict)
        (ma : string) (ca : option dict) (outcome : exn + ReturnData)
        (self : self_t World) (l1 l2 : list event) (c : call) (r : dict) :
  invokeW w check inject ma ca = (outcome, self) ->
  trace self = l1 ++ (c, r) :: l2 ->
  reports_failure (c, r) = true ->
  reports_change (c, r) = true ->
  outcome = inr {| failed := true; changed := true; msg := result_msg r |} /\
  l2 = [] /\
  forall s : self_t World,
    fst (handle_module_result World r s) = inl (ModuleError (result_msg r)) /\
    self_changed (snd (handle_module_result World r s)) = true.
Proof.
  intros E Ht Hf Hc.
  destruct (invoke_failure _ _ _ _ _ _ _ _ _ _ _ E Ht Hf) as (H1 & H2 & H3).
  split; [|split; [exact H1|]].
  - rewrite H3, any_change_app. cbn. rewrite Hc, orb_true_r. reflexivity.
  - intros s. rewrite handle_module_result_eq. cbn.
    unfold reports_failure, reports_change in Hf, Hc. cbn in Hf, Hc.
    unfold result_failed, result_changed. rewrite Hf, Hc, orb_true_r. auto.
Qed.

(** *** Compose data and the image list *)

Lemma images_of_dicts (l : list value) :
  forallb is_dict l = true -> exists imgs, images_of l = inr imgs.
Proof.
  induction l as [|c l IH]; cbn; intros H.
  - eauto.
  - apply andb_true_iff in H. destruct H as [Hc Hl].
    destruct (IH Hl) as [imgs Hi].
    destruct c; try discriminate. cbn.
    destruct (dict_lookup "image" d); rewrite Hi; eauto.
Qed.

Lemma compose_data_images (v : value) :
  compose_data v = true ->
  exists d, v = VDict d /\ truthy v = true /\
            images_of (dict_values d) = inr (image_list v).
Proof.
  destruct v as [ | | | | |d]; try discriminate.
  destruct d as [|kv d]; try discriminate.
  intros H. exists (kv :: d). split; [reflexivity|]. split; [reflexivity|].
  apply images_of_dicts in H. destruct H as [imgs H].
  unfold image_list. rewrite H. reflexivity.
Qed.

Lemma images_of_no_image (l : list value) :
  forallb (fun c => match c with
                    | VDict e =>
                        match dict_lookup "image" e with
                        | Some _ => false
                        | None => true
                        end
                    | _ => false
                    end) l = true ->
  images_of l = inr [].
Proof.
  induction l as [|c l IH]; cbn; intros H.
  - reflexivity.
  - apply andb_true_iff in H. destruct H as [Hc Hl].
    destruct c; try discriminate. cbn.
    destruct (dict_lookup "image" d); [discriminate|]. auto.
Qed.

(** *** Running an invocation step by step *)

Ltac sym_in E :=
  cbv beta iota zeta delta
    [invoke run run_steps set_options bind try_except ret raise lift
     get_changed set_changed get_inject set_inject store_options
     option_field perform role data images_state containers_state
     docker_compose_directory docker_compose_file images execute_module
     create_docker_compose_configuration_directory
     remove_docker_compose_configuration_directory
     create_docker_compose_file has_docker_compose_file
     remove_docker_compose_file create_docker_compose_containers
     remove_docker_compose_containers pull_images remove_images
     init self_options self_changed self_inject world trace
     opt_role opt_data opt_images opt_containers negb app] in E.

(** A membership test on a state: decided when the state is a constant,
    split otherwise. *)
Ltac test_in E :=
  match type of E with
  | context [in_strs ?v ?l] =>
      let H := fresh "T" in
      destruct (in_strs v l) eqn:H;
      try solve [vm_compute in H; discriminate];
      sym_in E
  end.

(** A call: its raw result is named, and handled in both ways. *)
Ltac call_in E :=
  match type of E with
  | context [respond ?w ?c] =>
      let r := fresh "r" in
      let w' := fresh "w" in
      let R := fresh "R" in
      let F := fresh "F" in
      destruct (respond w c) as [r w'] eqn:R; sym_in E;
      rewrite handle_module_result_eq in E;
      destruct (truthy (result_failed r)) eqn:F; sym_in E
  end.

(** The end of a run: the outcome and the final state are known. *)
Ltac finish E :=
  apply pair_equal_spec in E; destruct E as [<- <-];
  cbv beta iota delta [trace calls map fst self_changed world
                         opt_role opt_data opt_images opt_containers].

(** Membership in an explicit list, case by case. *)
Ltac cases_of Hin :=
  cbv beta iota delta [In] in Hin;
  repeat match type of Hin with
         | _ \/ _ => destruct Hin as [<-|Hin]
         | False => destruct Hin
         end.

(** Start of a run outside check mode, on a valid role and valid data. *)
Ltac enter E Hr Ht :=
  sym_in E; rewrite Hr in E; sym_in E; rewrite Ht in E; sym_in E.

(** Tests and calls, as far as they go; [Himg] gives the image list. *)
Ltac drive E Himg :=
  repeat first
    [ progress (rewrite Himg in E; sym_in E)
    | test_in E
    | call_in E ].

(** *** Ordering *)

(** C3: outside check mode, on a valid role and valid data, with images
    "latest" and containers "restarted": the image pull is the first call;
    every call of the docker-compose module in the trace is the one with
    state=started and force=true and comes strictly after the pull; and
    unless a call fails that call is made, the calls being the pull, the
    directory, the template and the containers, in this order. *)
Theorem pull_precedes_forced_start (w : World) (inject : dict) (ma : string)
        (ca : option dict) (outcome : exn + ReturnData)
        (self : self_t World) :
  let o := options_in ma ca in
  let pull :=
    images_call py_str (VStr LATEST) (image_list (opt_data o)) in
  let start := containers_call py_str (opt_role o) true in
  truthy (opt_role o) = true ->
  compose_data (opt_data o) = true ->
  opt_images o = VStr LATEST ->
  opt_containers o = VStr RESTARTED ->
  invokeW w false inject ma ca = (outcome, self) ->
  (exists rest, calls (trace self) = pull :: rest) /\
  (forall c, In c (calls (trace self)) ->
             call_module_name c = "docker-compose" ->
             c = start /\ precedes pull c (calls (trace self))) /\
  (exists rd, outcome = inr rd /\
     (failed rd = false ->
      calls (trace self)
      = [pull;
         create_directory_call py_str (opt_role o);
         template_call py_str template_file_name inject
           (opt_role o) (opt_data o);
         start])).
Proof.
  intros o pull start Hr Hd Hi Hc E. subst pull start.
  unfold invoke, run, run_steps, set_options in E.
  fold o in E. destruct o as [oc od oi or].
  cbn in Hr, Hd, Hi, Hc. subst oi oc.
  destruct (compose_data_images _ Hd) as (d & -> & Ht & Himg).
  enter E Hr Ht. drive E Himg; finish E.
  all: split; [eexists; reflexivity|].
  all: split;
    [ intros c Hin Hn; cases_of Hin; try discriminate Hn
    | eexists; split; [reflexivity|];
      intros Hf; try discriminate Hf; reflexivity ].
  all: split; [reflexivity|].
  all: unfold precedes; eexists [], [_; _], []; reflexivity.
Qed.

(** *** The calls are distinct *)

Lemma append_length (s t : string) :
  String.length (s ++ t)%string = String.length s + String.length t.
Proof. induction s as [|a s IH]; cbn; [reflexivity | rewrite IH; reflexivity]. Qed.

Lemma directory_call_not_file_call (rl : value) :
  remove_directory_call py_str rl <> remove_file_call py_str rl.
Proof.
  unfold remove_directory_call, remove_file_call, file_of.
  intros H. injection H as H.
  apply (f_equal String.length) in H.
  rewrite !append_length in H. cbn in H. lia.
Qed.

(** The failure reports of an explicit trace against those of its calls. *)
Ltac failures_in Hnf :=
  cbv beta iota delta [no_failure forallb reports_failure snd trace] in Hnf;
  repeat match goal with
         | F : truthy (result_failed _) = _ |- _ =>
             unfold result_failed in F; rewrite F in Hnf; clear F
         end;
  try (cbn in Hnf; discriminate Hnf).

(** Membership in an explicit list of calls none of which it can be. *)
Ltac absurd_in Hin :=
  cbv beta iota delta [In removal_calls app calls map fst] in Hin;
  repeat match type of Hin with
         | _ \/ _ =>
             let H := fresh "Heq" in
             destruct Hin as [H|Hin]; [try discriminate H|]
         | False => destruct Hin
         end.

(** C4: outside check mode, on a valid role and valid data, with containers
    and images both "absent", in a run in which no call reports failure:
    when the stat result has a stat.exists entry, the calls are exactly the
    stat, then (if the file exists) the removal of the containers and of
    the file, then the removal of the directory, and only then, last, the
    image removal, and the invocation succeeds; when the stat result has no
    such entry the lookup raises, after the stat call alone.  The image
    removal is none of the calls of the container sequence. *)
Theorem removal_precedes_image_removal (w : World) (inject : dict)
        (ma : string) (ca : option dict) (outcome : exn + ReturnData)
        (self : self_t World) :
  let o := options_in ma ca in
  let rl := opt_role o in
  let sequence :=
    removal_calls (stat_call py_str rl) (remove_containers_call py_str rl)
      (remove_file_call py_str rl) (remove_directory_call py_str rl) in
  let image_removal :=
    images_call py_str (VStr ABSENT) (image_list (opt_data o)) in
  truthy rl = true ->
  compose_data (opt_data o) = true ->
  opt_containers o = VStr ABSENT ->
  opt_images o = VStr ABSENT ->
  invokeW w false inject ma ca = (outcome, self) ->
  no_failure (trace self) = true ->
  match stat_exists (fst (respond w (stat_call py_str rl))) with
  | inr e =>
      calls (trace self) = sequence (truthy e) ++ [image_removal] /\
      ~ In image_removal (sequence (truthy e)) /\
      exists ch, outcome = inr {| failed := false; changed := ch;
                                  msg := VStr "ok" |}
  | inl ex =>
      outcome = inl ex /\ calls (trace self) = [stat_call py_str rl]
  end.
Proof.
  intros o rl sequence image_removal Hr Hd Hc Hi E Hnf.
  subst rl sequence image_removal.
  unfold invoke, run, run_steps, set_options in E.
  fold o in E. destruct o as [oc od oi or].
  cbn in Hr, Hd, Hi, Hc. subst oi oc.
  destruct (compose_data_images _ Hd) as (d & -> & Ht & Himg).
  cbv beta iota delta [opt_role opt_data].
  enter E Hr Ht. test_in E. test_in E. call_in E.
  { finish E. failures_in Hnf. }
  match goal with
  | R : respond w ?c = _ |- context [respond w ?c'] =>
      change c' with c; rewrite R
  end.
  cbv beta iota delta [fst stat_exists subscript].
  cbv beta iota delta [subscript] in E.
  destruct (dict_lookup "stat" r) as [st|].
  2:{ finish E. split; reflexivity. }
  destruct st as [ | | | | |sd]; try (finish E; split; reflexivity).
  destruct (dict_lookup "exists" sd) as [e|].
  2:{ finish E. split; reflexivity. }
  sym_in E.
  destruct (truthy e) eqn:X; sym_in E; drive E Himg; finish E;
    failures_in Hnf.
  all: split; [reflexivity|].
  all: split;
    [ intros Hin; absurd_in Hin
    | eexists; reflexivity ].
Qed.

(** *** Skipping *)

(** The whole of a run: tests and calls, the two lookups in the stat
    result and the test of what they give, then the rest. *)
Ltac run_all E Himg :=
  drive E Himg;
  cbv beta iota delta [subscript] in E;
  try (match type of E with
       | context [dict_lookup "stat" ?r1] =>
           destruct (dict_lookup "stat" r1) as [[ | | | | |sd]|] eqn:S1
       end);
  try (match type of E with
       | context [dict_lookup "exists" ?sd] =>
           destruct (dict_lookup "exists" sd) as [e1|] eqn:S2
       end);
  try (match type of E with
       | context [truthy ?e1] =>
           match e1 with
           | result_failed _ => fail 1
           | result_changed _ => fail 1
           | _ => destruct (truthy e1) eqn:X
           end
       end);
  sym_in E; drive E Himg; finish E.

(** An event of an explicit trace that is the stat call with result [r]. *)
Ltac which_event Hin :=
  cbv beta iota delta [In trace] in Hin;
  repeat match type of Hin with
         | _ \/ _ =>
             let H := fresh "Hev" in
             destruct Hin as [H|Hin];
             [ apply pair_equal_spec in H;
               let Hc := fresh "Hcall" in
               destruct H as [Hc H];
               try discriminate Hc; clear Hc; try subst
             | ]
         | False => destruct Hin
         end.

(** C5: outside check mode, on a valid role and valid data, with containers
    "absent": when the stat call of the run returned without failure a
    result whose stat.exists is false, neither the removal of the
    containers nor the removal of the file is among the calls, and the
    removal of the directory is. *)
Theorem missing_file_skips_removal (w : World) (inject : dict) (ma : string)
        (ca : option dict) (outcome : exn + ReturnData)
        (self : self_t World) (r : dict) (e : value) :
  let o := options_in ma ca in
  let rl := opt_role o in
  truthy rl = true ->
  compose_data (opt_data o) = true ->
  opt_containers o = VStr ABSENT ->
  invokeW w false inject ma ca = (outcome, self) ->
  In (stat_call py_str rl, r) (trace self) ->
  reports_failure (stat_call py_str rl, r) = false ->
  stat_exists r = inr e ->
  truthy e = false ->
  ~ In (remove_containers_call py_str rl) (calls (trace self)) /\
  ~ In (remove_file_call py_str rl) (calls (trace self)) /\
  In (remove_directory_call py_str rl) (calls (trace self)).
Proof.
  intros o rl Hr Hd Hc E Hin Hrf Hse Hte. subst rl.
  unfold invoke, run, run_steps, set_options in E.
  fold o in E. destruct o as [oc od oi or].
  cbn in Hr, Hd, Hc. subst oc.
  destruct (compose_data_images _ Hd) as (d & -> & Ht & Himg).
  cbv beta iota delta [opt_role opt_data] in *.
  unfold reports_failure in Hrf. cbn [snd] in Hrf.
  unfold stat_exists, subscript in Hse.
  enter E Hr Ht. run_all E Himg.
  all: which_event Hin.
  all: try (unfold result_failed in *; congruence).
  all: rewrite ?S1 in Hse; rewrite ?S2 in Hse; try discriminate Hse.
  all: try (injection Hse as ->; congruence).
  all: split; [intros H; absurd_in H|].
  all: split;
    [ intros H; absurd_in H;
      exact (directory_call_not_file_call _ Heq)
    | cbv beta iota delta [In];
      repeat first [left; reflexivity | right] ].
Qed.

(** *** The image list may be empty *)

Lemma no_image_field_images (v : value) :
  no_image_field v = true ->
  exists d, v = VDict d /\ images_of (dict_values d) = inr [].
Proof.
  destruct v as [ | | | | |d]; try discriminate.
  intros H. exists d. split; [reflexivity|].
  apply images_of_no_image. exact H.
Qed.

Lemma in_strs_images (v : value) :
  in_strs v [PRESENT; LATEST; ABSENT] = true ->
  v = VStr PRESENT \/ v = VStr LATEST \/ v = VStr ABSENT.
Proof.
  destruct v as [ | | |s| | ]; try discriminate.
  unfold in_strs, existsb, str_eq. rewrite !orb_true_iff, !String.eqb_eq.
  intros [->|[->|[->|H]]]; auto. discriminate.
Qed.

(** A list that ends with a given element. *)
Ltac ends_with :=
  first [ exists []; reflexivity
        | eexists [_]; reflexivity
        | eexists [_; _]; reflexivity
        | eexists [_; _; _]; reflexivity
        | eexists [_; _; _; _]; reflexivity
        | eexists [_; _; _; _; _]; reflexivity ].

(** C10, amended: outside check mode, on a valid role and non-empty data
    no entry of which has an "image" field: with images "present" or
    "latest" the docker-images module is called, first, with an empty image
    list; with images "absent" it is called, last, with an empty image list
    in every run that returns without failure; and every call of the
    docker-images module in the trace carries the empty image list. *)
Theorem images_call_with_empty_list (w : World) (inject : dict)
        (ma : string) (ca : option dict) (outcome : exn + ReturnData)
        (self : self_t World) :
  let o := options_in ma ca in
  let images := images_call py_str (opt_images o) [] in
  truthy (opt_role o) = true ->
  truthy (opt_data o) = true ->
  no_image_field (opt_data o) = true ->
  in_strs (opt_images o) [PRESENT; LATEST; ABSENT] = true ->
  invokeW w false inject ma ca = (outcome, self) ->
  (in_strs (opt_images o) [PRESENT; LATEST] = true ->
   exists rest, calls (trace self) = images :: rest) /\
  (in_strs (opt_images o) [ABSENT] = true ->
   forall rd, outcome = inr rd -> failed rd = false ->
   exists before, calls (trace self) = before ++ [images]) /\
  (forall c, In c (calls (trace self)) ->
             call_module_name c = "docker-images" -> c = images).
Proof.
  intros o images Hr Ht Hd Hi E. subst images.
  unfold invoke, run, run_steps, set_options in E.
  fold o in E. destruct o as [oc od oi or].
  cbn in Hr, Ht, Hd, Hi.
  destruct (no_image_field_images _ Hd) as (d & -> & Himg).
  cbv beta iota delta [opt_images].
  apply in_strs_images in Hi. destruct Hi as [->|[->| ->]].
  all: enter E Hr Ht; run_all E Himg.
  all: split;
    [ intros H; first [eexists; reflexivity | vm_compute in H; discriminate H]
    | ].
  all: split;
    [ intros H rd Heq Hf;
      first [ vm_compute in H; discriminate H
            | discriminate Heq
            | injection Heq as <-; discriminate Hf
            | ends_with ]
    | intros c Hin Hn; cases_of Hin; try discriminate Hn; reflexivity ].
Qed.

(** * Further properties *)

(** *** The calls follow the plan *)

Lemma pull_excludes_removal (v : value) :
  in_strs v [PRESENT; LATEST] = true -> in_strs v [ABSENT] = true -> False.
Proof.
  destruct v as [ | | |s| | ]; try discriminate.
  unfold in_strs, existsb, str_eq. rewrite !orb_true_iff, !String.eqb_eq.
  intros [->|[->|H]] [H'|H']; discriminate.
Qed.

Ltac plan_leaf :=
  cbv beta iota zeta delta [plan removal_calls opt_role opt_data opt_images
                              opt_containers];
  repeat match goal with
         | T : in_strs _ _ = _ |- _ => rewrite ?T; clear T
         end;
  split;
  [ reflexivity
  | intros rd Heq Hf;
    first [ discriminate Heq
          | injection Heq as <-; discriminate Hf
          | reflexivity ] ].

Lemma run_follows_plan (w : World) (inject : dict) (ma : string)
      (ca : option dict) (outcome : exn + ReturnData) (self : self_t World) :
  let o := options_in ma ca in
  truthy (opt_role o) = true ->
  compose_data (opt_data o) = true ->
  invokeW w false inject ma ca = (outcome, self) ->
  exists file_exists n,
    calls (trace self)
    = firstn n (plan py_str template_file_name inject o file_exists) /\
    (forall rd, outcome = inr rd -> failed rd = false ->
                calls (trace self)
                = plan py_str template_file_name inject o file_exists).
Proof.
  intros o Hr Hd E.
  unfold invoke, run, run_steps, set_options in E.
  fold o in E. destruct o as [oc od oi or].
  cbn in Hr, Hd.
  destruct (compose_data_images _ Hd) as (d & -> & Ht & Himg).
  enter E Hr Ht. run_all E Himg.
  all: first
         [ match goal with
           | T : in_strs ?v [PRESENT; LATEST] = true,
             T' : in_strs ?v [ABSENT] = true |- _ =>
               exfalso; exact (pull_excludes_removal v T T')
           end
         | exists true, 0; solve [plan_leaf]
         | exists true, 1; solve [plan_leaf]
         | exists true, 2; solve [plan_leaf]
         | exists false, 2; solve [plan_leaf]
         | exists true, 3; solve [plan_leaf]
         | exists false, 3; solve [plan_leaf]
         | exists true, 4; solve [plan_leaf]
         | exists false, 4; solve [plan_leaf]
         | exists true, 5; solve [plan_leaf] ].
Qed.

(** *** Where a ModuleError comes from *)

Lemma subscript_error (v : value) (k : string) (e : exn) :
  subscript v k = inl e -> forall message, e <> ModuleError message.
Proof.
  unfold subscript. destruct v as [ | | | | |d]; try (intros H; inversion H; discriminate).
  destruct (dict_lookup k d); intros H; inversion H; discriminate.
Qed.

Lemma images_of_error (l : list value) (e : exn) :
  images_of l = inl e -> forall message, e <> ModuleError message.
Proof.
  induction l as [|c l IH]; cbn; [discriminate|].
  destruct (contains "image" c) as [e'|[|]] eqn:C.
  - intros H; inversion H; subst e'.
    destruct c; cbn in C; inversion C; discriminate.
  - destruct (subscript c "image") as [e'|image] eqn:S.
    + intros H; inversion H; subst e'. exact (subscript_error _ _ _ S).
    + destruct (images_of l) as [e'|imgs]; [|discriminate].
      intros H; inversion H; subst e'. apply IH. reflexivity.
  - exact IH.
Qed.

Lemma disciplined_quiet {A} (m : M World A) :
  (forall s, snd (m s) = s) ->
  (forall s message, fst (m s) <> inl (ModuleError message)) ->
  disciplined m.
Proof.
  intros Hs Hr s res s' E. specialize (Hs s). specialize (Hr s).
  rewrite E in Hs, Hr. cbn in Hs, Hr. subst s'. split; [reflexivity|].
  intros message ->. destruct (Hr message). reflexivity.
Qed.

Lemma disciplined_ret {A} (a : A) : disciplined (@ret World A a).
Proof. apply disciplined_quiet; [reflexivity | discriminate]. Qed.

Lemma disciplined_option_field f : disciplined (option_field World f).
Proof.
  apply disciplined_quiet; intros s; unfold option_field;
    destruct (self_options s); [reflexivity | reflexivity | | ]; discriminate.
Qed.

Lemma disciplined_get_inject : disciplined (get_inject World).
Proof. apply disciplined_quiet; [reflexivity | discriminate]. Qed.

Lemma disciplined_attribute_error {A} :
  disciplined (@raise World A AttributeError).
Proof. apply disciplined_quiet; [reflexivity | discriminate]. Qed.

Lemma disciplined_lift {A} (r : exn + A) :
  (forall e, r = inl e -> forall message, e <> ModuleError message) ->
  disciplined (@lift World A r).
Proof.
  intros H. apply disciplined_quiet; [reflexivity|].
  intros s message E. cbn in E. exact (H _ E message eq_refl).
Qed.

Lemma disciplined_bind {A B} (m : M World A) (f : A -> M World B) :
  disciplined m -> (forall a, disciplined (f a)) -> disciplined (bind m f).
Proof.
  intros Hm Hf s res s' E. unfold bind in E.
  destruct (m s) as [[e|a] s1] eqn:E1.
  - inversion E; subst. destruct (Hm _ _ _ E1) as [Hi Hr].
    split; [exact Hi|].
    intros message H. apply Hr. inversion H. reflexivity.
  - destruct (Hm _ _ _ E1) as [Hi _].
    destruct (Hf a _ _ _ E) as [Hi' Hr].
    split; [congruence | exact Hr].
Qed.

Lemma disciplined_if {A} (b : bool) (m1 m2 : M World A) :
  disciplined m1 -> disciplined m2 -> disciplined (if b then m1 else m2).
Proof. destruct b; auto. Qed.

Lemma disciplined_perform_handle (c : call) :
  disciplined (bind (perform World respond c)
                 (fun result => handle_module_result World result)).
Proof.
  intros s res s' E.
  change (bind (perform World respond c) (handle_module_result World) s
          = (res, s')) in E.
  rewrite perform_handled in E. unfold handled in E.
  destruct (respond (world s) c) as [r w]. inversion E; subst; clear E.
  split; [reflexivity|].
  intros message H. exists (trace s), (c, r). cbn.
  destruct (reports_failure (c, r)); [|discriminate].
  inversion H. auto.
Qed.

Lemma disciplined_execute_module n a ca :
  disciplined (execute_module World respond n a ca).
Proof. apply disciplined_perform_handle. Qed.

Create HintDb disciplined.

#[local] Hint Resolve disciplined_ret disciplined_option_field
  disciplined_get_inject disciplined_attribute_error
  disciplined_execute_module disciplined_perform_handle : disciplined.

Ltac disciplined_steps :=
  repeat first
    [ solve [auto with disciplined]
    | apply disciplined_lift; intros;
      solve [eapply images_of_error; eassumption
            |eapply subscript_error; eassumption]
    | apply disciplined_bind; [|intros]
    | apply disciplined_if
    | match goal with
      | |- disciplined (match ?v with _ => _ end) => destruct v
      end ].

Lemma disciplined_docker_compose_file :
  disciplined (docker_compose_file World py_str).
Proof.
  unfold docker_compose_file, docker_compose_directory, role.
  disciplined_steps.
Qed.

Lemma disciplined_docker_compose_directory :
  disciplined (docker_compose_directory World py_str).
Proof. unfold docker_compose_directory, role. disciplined_steps. Qed.

Lemma disciplined_images : disciplined (images World).
Proof. unfold images, data. disciplined_steps. Qed.

#[local] Hint Resolve disciplined_docker_compose_file
  disciplined_docker_compose_directory disciplined_images : disciplined.

Lemma disciplined_create_directory :
  disciplined
    (create_docker_compose_configuration_directory World respond py_str).
Proof.
  unfold create_docker_compose_configuration_directory. disciplined_steps.
Qed.

Lemma disciplined_remove_directory :
  disciplined
    (remove_docker_compose_configuration_directory World respond py_str).
Proof.
  unfold remove_docker_compose_configuration_directory. disciplined_steps.
Qed.

Lemma disciplined_create_file :
  disciplined
    (create_docker_compose_file World respond py_str template_file_name).
Proof. unfold create_docker_compose_file, data. disciplined_steps. Qed.

Lemma disciplined_has_file :
  disciplined (has_docker_compose_file World respond py_str).
Proof. unfold has_docker_compose_file. disciplined_steps. Qed.

Lemma disciplined_remove_file :
  disciplined (remove_docker_compose_file World respond py_str).
Proof. unfold remove_docker_compose_file. disciplined_steps. Qed.

Lemma disciplined_create_containers :
  disciplined (create_docker_compose_containers World respond py_str).
Proof.
  unfold create_docker_compose_containers, containers_state.
  disciplined_steps.
Qed.

Lemma disciplined_remove_containers :
  disciplined (remove_docker_compose_containers World respond py_str).
Proof. unfold remove_docker_compose_containers. disciplined_steps. Qed.

Lemma disciplined_pull_images :
  disciplined (pull_images World respond py_str).
Proof. unfold pull_images, images_state. disciplined_steps. Qed.

Lemma disciplined_remove_images :
  disciplined (remove_images World respond py_str).
Proof. unfold remove_images, images_state. disciplined_steps. Qed.

#[local] Hint Resolve disciplined_create_directory
  disciplined_remove_directory disciplined_create_file disciplined_has_file
  disciplined_remove_file disciplined_create_containers
  disciplined_remove_containers disciplined_pull_images
  disciplined_remove_images : disciplined.

Lemma bind_inv {A B} (m : M World A) (f : A -> M World B) s res s' :
  bind m f s = (res, s') ->
  (exists e, m s = (inl e, s') /\ res = inl e) \/
  (exists a s1, m s = (inr a, s1) /\ f a s1 = (res, s')).
Proof.
  unfold bind. destruct (m s) as [[e|a] s1]; intros E.
  - left. exists e. inversion E; auto.
  - right. exists a, s1. auto.
Qed.

(** What [set_options] does: it stores the options and raises for the
    first of role and data that is false. *)
Lemma set_options_cases ma ca (s : self_t World) :
  let o := options_in ma ca in
  let s1 := {| self_options := Some o;
               self_changed := self_changed s;
               self_inject := self_inject s;
               world := world s;
               trace := trace s |} in
  set_options World parse_kv ma ca s
  = (if negb (truthy (opt_role o))
     then inl (ModuleError (VStr "role is required"))
     else if negb (truthy (opt_data o))
          then inl (ModuleError (VStr "data is required"))
          else inr tt,
     s1).
Proof.
  unfold set_options, data.
  cbv beta iota zeta delta [bind store_options option_field self_options].
  destruct (negb (truthy (opt_role (options_in ma ca)))); [reflexivity|].
  cbn.
  match goal with
  | |- context [if ?b then _ else _] => destruct b
  end; reflexivity.
Qed.

(** After validation, the steps of a run are disciplined. *)
Lemma run_steps_after_validation ma ca (s : self_t World) res s' :
  run_steps World respond parse_kv py_str template_file_name ma ca s
  = (res, s') ->
  (exists e, set_options World parse_kv ma ca s = (inl e, s') /\ res = inl e)
  \/
  (exists s1, set_options World parse_kv ma ca s = (inr tt, s1) /\
     self_inject s' = self_inject s1 /\
     forall message,
       res = inl (ModuleError message) ->
       exists l e,
         trace s' = l ++ [e] /\ reports_failure e = true /\
         message = result_msg (snd e)).
Proof.
  unfold run_steps. intros E. apply bind_inv in E.
  destruct E as [(e & E & ->)|([] & s1 & E & E')].
  - left. eauto.
  - right. exists s1. split; [exact E|].
    revert E'.
    match goal with
    | |- ?f s1 = _ -> _ =>
        assert (D : disciplined f)
          by (unfold images_state, containers_state; disciplined_steps)
    end.
    intros E'. exact (D _ _ _ E').
Qed.
(** *** Validation of the data *)

(** X1: outside check mode, with a role that is true and data that is
    absent or empty, the invocation returns failed=true, changed=false,
    msg="data is required", and makes no call. *)
Theorem missing_data_is_rejected (w : World) (inject : dict) (ma : string)
        (ca : option dict) :
  truthy (opt_role (options_in ma ca)) = true ->
  truthy (opt_data (options_in ma ca)) = false ->
  fst (invokeW w false inject ma ca)
  = inr {| failed := true; changed := false;
           msg := VStr "data is required" |} /\
  trace (snd (invokeW w false inject ma ca)) = [] /\
  world (snd (invokeW w false inject ma ca)) = w.
Proof.
  intros Hr Hd.
  unfold invoke, run, run_steps.
  cbv beta iota delta [bind try_except set_inject init self_options
                         self_changed world trace self_inject].
  rewrite set_options_cases. cbv zeta. rewrite Hr, Hd. cbn. auto.
Qed.

(** *** The outcome of an invocation *)

(** X2: an invocation outside check mode that returns an outcome returns
    one of four: success with msg="ok", role and data being true and no
    result reporting failure; the failure "role is required", the role
    being false and no call made; the failure "data is required", the role
    being true, the data false and no call made; or the failure whose
    message is that of the last result of the trace, the only one that
    reports failure. *)
Theorem outcome_characterised (w : World) (inject : dict) (ma : string)
        (ca : option dict) (outcome : exn + ReturnData)
        (self : self_t World) (rd : ReturnData) :
  let o := options_in ma ca in
  invokeW w false inject ma ca = (outcome, self) ->
  outcome = inr rd ->
  (failed rd = false /\ msg rd = VStr "ok" /\
   truthy (opt_role o) = true /\ truthy (opt_data o) = true /\
   no_failure (trace self) = true)
  \/
  (failed rd = true /\ msg rd = VStr "role is required" /\
   truthy (opt_role o) = false /\ trace self = [])
  \/
  (failed rd = true /\ msg rd = VStr "data is required" /\
   truthy (opt_role o) = true /\ truthy (opt_data o) = false /\
   trace self = [])
  \/
  (failed rd = true /\
   exists l e,
     trace self = l ++ [e] /\ no_failure l = true /\
     reports_failure e = true /\ msg rd = result_msg (snd e)).
Proof.
  intros o E Hrd. subst outcome.
  unfold invoke, run in E.
  cbv beta iota delta [bind set_inject init self_options self_changed
                         world trace] in E.
  unfold try_except in E.
  match type of E with
  | context [run_steps _ _ _ _ _ _ _ ?s0] =>
      destruct (run_steps World respond parse_kv py_str template_file_name
                  ma ca s0) as [[e|u] s1] eqn:E1
  end;
    destruct (sound_run_steps _ _ _ _ _ E1) as (new & [Ht _] & Hstop);
    cbn in Ht;
    apply run_steps_after_validation in E1;
    rewrite set_options_cases in E1; cbv zeta in E1; fold o in E1;
    cbn [self_inject trace self_changed world] in E1; clearbody o.
  - destruct e as [m| | | ]; try discriminate E.
    cbn in E. injection E as <- <-. cbn.
    destruct E1 as [(e' & E1 & He)|(s2 & E1 & _ & Hlast)].
    + injection He as <-. right.
      destruct (truthy (opt_role o)); cbn in E1.
      * destruct (truthy (opt_data o)); cbn in E1; [discriminate E1|].
        injection E1 as <- <-. right. left. cbn. auto.
      * injection E1 as <- <-. left. cbn. auto.
    + destruct (Hlast m eq_refl) as (l & ev & Hl & Hev & Hm).
      do 3 right. split; [reflexivity|].
      destruct Hstop as [Hok|(l' & ev' & -> & Hl' & Hev' & Hres)].
      * rewrite <- Ht, Hl in Hok.
        assert (Hin : In ev (l ++ [ev]))
          by (apply in_or_app; right; left; reflexivity).
        rewrite (no_failure_In _ _ Hok Hin) in Hev. discriminate.
      * exists l', ev'. injection Hres as ->. auto.
  - cbn in E. injection E as <- <-. cbn. left.
    destruct E1 as [(e' & _ & He)|(s2 & E1 & _)]; [discriminate He|].
    destruct (truthy (opt_role o)); cbn in E1; [|discriminate E1].
    destruct (truthy (opt_data o)); cbn in E1; [|discriminate E1].
    repeat split.
    destruct Hstop as [Hok|(l' & ev' & _ & _ & _ & Hres)];
      [congruence | discriminate Hres].
Qed.

(** *** The injected variables *)

(** X3: an invocation leaves [self.inject] as [run] stored it: the template
    step works on a copy. *)
Theorem inject_is_kept (w : World) (check : bool) (inject : dict)
        (ma : string) (ca : option dict) :
  self_inject (snd (invokeW w check inject ma ca)) = inject.
Proof.
  unfold invoke, run. destruct check; [reflexivity|].
  cbv beta iota delta [bind set_inject init self_options self_changed
                         world trace self_inject].
  unfold try_except.
  match goal with
  | |- context [run_steps _ _ _ _ _ _ _ ?s0] =>
      destruct (run_steps World respond parse_kv py_str template_file_name
                  ma ca s0) as [[e|u] s1] eqn:E1
  end;
    apply run_steps_after_validation in E1;
    rewrite set_options_cases in E1; cbv zeta in E1;
    cbn [self_inject trace self_changed world] in E1;
    (assert (Hi : self_inject s1 = inject);
     [ destruct E1 as [(e' & E1 & _)|(s2 & E1 & Hi & _)];
       [ injection E1 as _ <-; reflexivity
       | injection E1 as _ <-; exact Hi ]
     | ]).
  - destruct e; exact Hi.
  - exact Hi.
Qed.
(** *** The merged arguments *)

Lemma lookup_dict_set_same (k : string) (v : value) (d : dict) :
  dict_lookup k (dict_set k v d) = Some v.
Proof.
  induction d as [|[k' v'] d IH]; cbn.
  - rewrite String.eqb_refl. reflexivity.
  - destruct (String.eqb k k') eqn:E; cbn.
    + rewrite String.eqb_refl. reflexivity.
    + rewrite E. exact IH.
Qed.

Lemma lookup_dict_set_other (k k' : string) (v : value) (d : dict) :
  k' <> k -> dict_lookup k' (dict_set k v d) = dict_lookup k' d.
Proof.
  intros Hne. apply String.eqb_neq in Hne.
  induction d as [|[k0 v0] d IH]; cbn.
  - rewrite Hne. reflexivity.
  - destruct (String.eqb k k0) eqn:E; cbn.
    + apply String.eqb_eq in E. subst k0. rewrite Hne. reflexivity.
    + destruct (String.eqb k' k0); [reflexivity | exact IH].
Qed.

Lemma dict_update_snoc (d e : dict) (k : string) (v : value) :
  dict_update d (e ++ [(k, v)]) = dict_set k v (dict_update d e).
Proof. unfold dict_update. rewrite fold_left_app. reflexivity. Qed.

Lemma lookup_app (k : string) (l1 l2 : dict) :
  dict_lookup k (l1 ++ l2)
  = match dict_lookup k l1 with
    | Some v => Some v
    | None => dict_lookup k l2
    end.
Proof.
  induction l1 as [|[k' v'] l1 IH]; cbn; [reflexivity|].
  destruct (String.eqb k k'); [reflexivity | exact IH].
Qed.

Lemma lookup_absent (k : string) (l : dict) :
  ~ In k (map fst l) -> dict_lookup k l = None.
Proof.
  induction l as [|[k' v'] l IH]; cbn; [reflexivity|].
  intros H. destruct (String.eqb_spec k k') as [->|Hne].
  - destruct H. left. reflexivity.
  - apply IH. intros Hin. apply H. right. exact Hin.
Qed.

(** After [d.update(e)] a key has its last binding in [e], if any. *)
Lemma lookup_dict_update (d e : dict) (k : string) :
  dict_lookup k (dict_update d e)
  = match dict_lookup k (rev e) with
    | Some v => Some v
    | None => dict_lookup k d
    end.
Proof.
  induction e as [|[k0 v0] e IH] using rev_ind; [reflexivity|].
  rewrite dict_update_snoc, rev_app_distr. cbn.
  destruct (String.eqb_spec k k0) as [->|Hne].
  - apply lookup_dict_set_same.
  - rewrite lookup_dict_set_other by exact Hne. exact IH.
Qed.

Lemma lookup_rev (e : dict) (k : string) :
  NoDup (map fst e) -> dict_lookup k (rev e) = dict_lookup k e.
Proof.
  induction e as [|[k0 v0] e IH]; [reflexivity|].
  cbn. intros H. inversion H as [|? ? Hnotin Hnd]; subst.
  rewrite lookup_app. cbn.
  destruct (String.eqb_spec k k0) as [->|Hne].
  - rewrite lookup_absent; [reflexivity|].
    rewrite map_rev. intros Hin. apply Hnotin. apply in_rev. exact Hin.
  - rewrite (IH Hnd). destruct (dict_lookup k e); reflexivity.
Qed.

(** X4: in the arguments [set_options] reads, a key given in the
    structured arguments has the value given there, and any other key the
    value [parse_kv] found in the module arguments. *)
Theorem complex_args_override (ma : string) (e : dict) (k : string) :
  NoDup (map fst e) ->
  dict_lookup k (merged_args parse_kv ma (Some e))
  = match dict_lookup k e with
    | Some v => Some v
    | None => dict_lookup k (parse_kv ma)
    end.
Proof.
  intros H. unfold merged_args. destruct e as [|kv e]; [reflexivity|].
  rewrite lookup_dict_update, (lookup_rev _ _ H). reflexivity.
Qed.

Lemma options_of_dict_set (k : string) (v : value) (d : dict) :
  k <> "containers" -> k <> "data" -> k <> "images" -> k <> "role" ->
  options_of (dict_set k v d) = options_of d.
Proof.
  intros H1 H2 H3 H4. unfold options_of, dict_get.
  rewrite !lookup_dict_set_other by (apply not_eq_sym; assumption).
  reflexivity.
Qed.

Lemma try_except_congr {A B} (m m' : M World A) h (o : M World B) s :
  m s = m' s -> try_except m h o s = try_except m' h o s.
Proof. unfold try_except. intros ->. reflexivity. Qed.

Lemma bind_congr {A B} (m m' : M World A) (f : A -> M World B) s :
  m s = m' s -> bind m f s = bind m' f s.
Proof. unfold bind. intros ->. reflexivity. Qed.

(** An invocation depends on its arguments through the four options. *)
Lemma invoke_by_options (w : World) (check : bool) (inject : dict)
      (ma ma' : string) (ca ca' : option dict) :
  options_in ma ca = options_in ma' ca' ->
  invokeW w check inject ma ca = invokeW w check inject ma' ca'.
Proof.
  intros H. unfold invoke, run. destruct check; [reflexivity|].
  cbv beta iota delta [bind set_inject init].
  cbv beta iota delta [self_options self_changed world trace].
  apply try_except_congr. unfold run_steps. apply bind_congr.
  rewrite !set_options_cases. cbv zeta. rewrite H. reflexivity.
Qed.

(** X5: a key other than containers, data, images and role is ignored:
    adding it to the structured arguments changes nothing of the
    invocation, neither its outcome nor its calls. *)
Theorem unrecognised_key_is_ignored (w : World) (check : bool)
        (inject : dict) (ma : string) (e : dict) (k : string) (v : value) :
  k <> "containers" -> k <> "data" -> k <> "images" -> k <> "role" ->
  invokeW w check inject ma (Some (e ++ [(k, v)]))
  = invokeW w check inject ma (Some e).
Proof.
  intros H1 H2 H3 H4. apply invoke_by_options.
  assert (Hm : merged_args parse_kv ma (Some (e ++ [(k, v)]))
               = dict_set k v (merged_args parse_kv ma (Some e))).
  { unfold merged_args.
    destruct e as [|kv e]; [reflexivity|].
    change ((kv :: e) ++ [(k, v)]) with (kv :: (e ++ [(k, v)])).
    rewrite <- dict_update_snoc. reflexivity. }
  rewrite Hm. apply options_of_dict_set; assumption.
Qed.
(** *** What the plan tells about the calls *)

(** X6: outside check mode, on a valid role and valid data, the calls made
    are an initial segment of the plan of the options, and the whole plan
    when the invocation returns without failure. *)
Theorem calls_follow_plan (w : World) (inject : dict) (ma : string)
        (ca : option dict) (outcome : exn + ReturnData)
        (self : self_t World) :
  let o := options_in ma ca in
  truthy (opt_role o) = true ->
  compose_data (opt_data o) = true ->
  invokeW w false inject ma ca = (outcome, self) ->
  exists file_exists n,
    calls (trace self)
    = firstn n (plan py_str template_file_name inject o file_exists) /\
    (forall rd, outcome = inr rd -> failed rd = false ->
                calls (trace self)
                = plan py_str template_file_name inject o file_exists).
Proof. exact (run_follows_plan w inject ma ca outcome self). Qed.

Lemma In_firstn {A} (x : A) (n : nat) (l : list A) :
  In x (firstn n l) -> In x l.
Proof.
  revert l. induction n as [|n IH]; intros [|a l]; cbn; try tauto.
  intros [->|H]; [left; reflexivity | right; apply IH; exact H].
Qed.

Lemma NoDup_firstn {A} (n : nat) (l : list A) :
  NoDup l -> NoDup (firstn n l).
Proof.
  revert l. induction n as [|n IH]; intros [|a l] H; cbn; try constructor.
  - inversion H; subst. intros Hin. apply In_firstn in Hin. contradiction.
  - inversion H; subst. apply IH. assumption.
Qed.

(** Two calls differ: by their module, or by the length of their
    arguments. *)
Ltac differ Heq :=
  cbv beta delta [stat_call remove_file_call remove_directory_call
                    create_directory_call template_call containers_call
                    remove_containers_call images_call] in Heq;
  first
    [ discriminate Heq
    | apply (f_equal (fun c => String.length (call_module_args c))) in Heq;
      cbv beta iota delta [call_module_args file_of directory_of] in Heq;
      rewrite ?append_length in Heq;
      repeat match type of Heq with
             | context [if ?b then _ else _] => destruct b
             end;
      cbn in Heq; lia ].

(** The tests of a plan, case by case. *)
Ltac split_plan :=
  repeat match goal with
         | |- context [if in_strs ?v ?l then _ else _] =>
             let T := fresh "T" in destruct (in_strs v l) eqn:T
         | |- context [removal_calls _ _ _ _ ?b] =>
             unfold removal_calls; destruct b
         end.

Lemma plan_NoDup (inject : dict) (o : options_t) (b : bool) :
  NoDup (plan py_str template_file_name inject o b) /\
  length (plan py_str template_file_name inject o b) <= 5.
Proof.
  unfold plan. cbv zeta. split_plan.
  all: try (exfalso; eapply pull_excludes_removal; eassumption).
  all: cbn [app length]; split; [|lia].
  all: repeat (constructor;
               [ cbv beta iota delta [In];
                 intros Hin;
                 repeat match type of Hin with
                        | _ \/ _ =>
                            let H := fresh "Heq" in
                            destruct Hin as [H|Hin]; [differ H|]
                        | False => destruct Hin
                        end
               | ]).
  all: constructor.
Qed.

(** X7: outside check mode, on a valid role and valid data, an invocation
    makes at most five calls and no call twice. *)
Theorem calls_are_few_and_distinct (w : World) (inject : dict) (ma : string)
        (ca : option dict) (outcome : exn + ReturnData)
        (self : self_t World) :
  let o := options_in ma ca in
  truthy (opt_role o) = true ->
  compose_data (opt_data o) = true ->
  invokeW w false inject ma ca = (outcome, self) ->
  length (trace self) <= 5 /\ NoDup (calls (trace self)).
Proof.
  intros o Hr Hd E.
  destruct (run_follows_plan w inject ma ca outcome self Hr Hd E)
    as (b & n & Hcalls & _).
  fold o in Hcalls.
  destruct (plan_NoDup inject o b) as [Hnd Hlen].
  split.
  - rewrite <- (length_map fst (trace self)).
    change (map fst (trace self)) with (calls (trace self)).
    rewrite Hcalls, length_firstn. lia.
  - rewrite Hcalls. apply NoDup_firstn. exact Hnd.
Qed.
(** The segments of an explicit plan. *)
Ltac segments n :=
  destruct n as [|[|[|[|[|[|n]]]]]];
  cbn [firstn app]; rewrite ?firstn_nil.

Ltac find_precedes :=
  unfold precedes;
  first [ eexists [], [], _; reflexivity
        | eexists [_], [], _; reflexivity
        | eexists [], [_], _; reflexivity
        | eexists [_], [_], _; reflexivity
        | eexists [], [_; _], _; reflexivity
        | eexists [_], [_; _], _; reflexivity
        | eexists [_; _], [], _; reflexivity
        | eexists [_; _], [_], _; reflexivity
        | eexists [_; _; _], [], _; reflexivity ].

(** [c2] is in an explicit list of calls only after [c1]. *)
Ltac ordered Hin :=
  cbv beta iota delta [In] in Hin;
  repeat match type of Hin with
         | _ \/ _ =>
             let H := fresh "Heq" in
             destruct Hin as [H|Hin];
             [ first [ solve [differ H]
                     | solve [find_precedes]
                     | rewrite <- H; find_precedes ]
             | ]
         | False => destruct Hin
         end.

(** X8: outside check mode, on a valid role and valid data, a call of the
    docker-compose module is either the forced removal, made only when
    containers is "absent", or the start, made only when containers is
    "started" or "restarted" and forced exactly when it is "restarted". *)
Theorem containers_module_calls (w : World) (inject : dict) (ma : string)
        (ca : option dict) (outcome : exn + ReturnData)
        (self : self_t World) (c : call) :
  let o := options_in ma ca in
  let rl := opt_role o in
  truthy rl = true ->
  compose_data (opt_data o) = true ->
  invokeW w false inject ma ca = (outcome, self) ->
  In c (calls (trace self)) ->
  call_module_name c = "docker-compose" ->
  (c = remove_containers_call py_str rl /\
   in_strs (opt_containers o) [ABSENT] = true)
  \/
  (c = containers_call py_str rl (in_strs (opt_containers o) [RESTARTED]) /\
   in_strs (opt_containers o) [ABSENT] = false /\
   in_strs (opt_containers o) [STARTED; RESTARTED] = true).
Proof.
  intros o rl Hr Hd E Hin Hn.
  destruct (run_follows_plan w inject ma ca outcome self Hr Hd E)
    as (b & n & Hcalls & _).
  fold o in Hcalls. rewrite Hcalls in Hin. apply In_firstn in Hin.
  subst rl. clearbody o. clear Hcalls E Hr Hd.
  revert Hin. unfold plan. cbv zeta. split_plan.
  all: cbn [app]; intros Hin; cases_of Hin; try discriminate Hn.
  all: first [ left; solve [repeat split; auto]
             | right; solve [repeat split; auto] ].
Qed.

(** X9: outside check mode, on a valid role and valid data, the template
    is only written after the directory call, and the containers are only
    started after the template call. *)
Theorem file_is_written_before_start (w : World) (inject : dict)
        (ma : string) (ca : option dict) (outcome : exn + ReturnData)
        (self : self_t World) (force : bool) :
  let o := options_in ma ca in
  let rl := opt_role o in
  let template :=
    template_call py_str template_file_name inject rl (opt_data o) in
  truthy rl = true ->
  compose_data (opt_data o) = true ->
  invokeW w false inject ma ca = (outcome, self) ->
  (In template (calls (trace self)) ->
   precedes (create_directory_call py_str rl) template (calls (trace self)))
  /\
  (In (containers_call py_str rl force) (calls (trace self)) ->
   precedes template (containers_call py_str rl force)
     (calls (trace self))).
Proof.
  intros o rl template Hr Hd E.
  destruct (run_follows_plan w inject ma ca outcome self Hr Hd E)
    as (b & n & Hcalls & _).
  fold o in Hcalls. rewrite Hcalls.
  subst rl template. clearbody o. clear Hcalls E Hr Hd.
  unfold plan. cbv zeta. split_plan.
  all: segments n.
  all: split; intros Hin; ordered Hin.
Qed.

(** X10: outside check mode, on a valid role and valid data, the
    containers are only removed after the stat call, the file only after
    the removal of the containers, and the directory only after the stat
    call. *)
Theorem removal_is_ordered (w : World) (inject : dict) (ma : string)
        (ca : option dict) (outcome : exn + ReturnData)
        (self : self_t World) :
  let o := options_in ma ca in
  let rl := opt_role o in
  truthy rl = true ->
  compose_data (opt_data o) = true ->
  invokeW w false inject ma ca = (outcome, self) ->
  (In (remove_containers_call py_str rl) (calls (trace self)) ->
   precedes (stat_call py_str rl) (remove_containers_call py_str rl)
     (calls (trace self)))
  /\
  (In (remove_file_call py_str rl) (calls (trace self)) ->
   precedes (remove_containers_call py_str rl) (remove_file_call py_str rl)
     (calls (trace self)))
  /\
  (In (remove_directory_call py_str rl) (calls (trace self)) ->
   precedes (stat_call py_str rl) (remove_directory_call py_str rl)
     (calls (trace self))).
Proof.
  intros o rl Hr Hd E.
  destruct (run_follows_plan w inject ma ca outcome self Hr Hd E)
    as (b & n & Hcalls & _).
  fold o in Hcalls. rewrite Hcalls.
  subst rl. clearbody o. clear Hcalls E Hr Hd.
  unfold plan. cbv zeta. split_plan.
  all: segments n.
  all: repeat split; intros Hin; ordered Hin.
Qed.
(** *** States that are not recognised *)

Lemma in_strs_app (v : value) (l1 l2 : list string) :
  in_strs v (l1 ++ l2) = in_strs v l1 || in_strs v l2.
Proof. apply existsb_app. Qed.

(** X11: outside check mode, on a valid role and valid data: when images
    is none of present, latest and absent the docker-images module is never
    called, and when containers is none of absent, present, started and
    restarted no other module is. *)
Theorem unrecognised_states_are_skipped (w : World) (inject : dict)
        (ma : string) (ca : option dict) (outcome : exn + ReturnData)
        (self : self_t World) (c : call) :
  let o := options_in ma ca in
  truthy (opt_role o) = true ->
  compose_data (opt_data o) = true ->
  invokeW w false inject ma ca = (outcome, self) ->
  In c (calls (trace self)) ->
  (in_strs (opt_images o) [PRESENT; LATEST; ABSENT] = false ->
   call_module_name c <> "docker-images") /\
  (in_strs (opt_containers o) [ABSENT; PRESENT; STARTED; RESTARTED] = false ->
   call_module_name c = "docker-images").
Proof.
  intros o Hr Hd E Hin.
  destruct (run_follows_plan w inject ma ca outcome self Hr Hd E)
    as (b & n & Hcalls & _).
  fold o in Hcalls. rewrite Hcalls in Hin. apply In_firstn in Hin.
  clearbody o. clear Hcalls E Hr Hd.
  change [PRESENT; LATEST; ABSENT] with ([PRESENT; LATEST] ++ [ABSENT]).
  change [ABSENT; PRESENT; STARTED; RESTARTED]
    with ([ABSENT] ++ [PRESENT; STARTED; RESTARTED]).
  rewrite !in_strs_app, !orb_false_iff.
  revert Hin. unfold plan. cbv zeta. split_plan.
  all: cbn [app]; intros Hin; cases_of Hin.
  all: split; [intros [H1 H2] | intros [H1 H2]]; try discriminate.
  all: reflexivity.
Qed.

(** X12: outside check mode, on a valid role and valid data, when neither
    images nor containers has a recognised state the invocation makes no
    call and succeeds with changed=false. *)
Theorem nothing_requested (w : World) (inject : dict) (ma : string)
        (ca : option dict) :
  let o := options_in ma ca in
  truthy (opt_role o) = true ->
  compose_data (opt_data o) = true ->
  in_strs (opt_images o) [PRESENT; LATEST; ABSENT] = false ->
  in_strs (opt_containers o) [ABSENT; PRESENT; STARTED; RESTARTED] = false ->
  invokeW w false inject ma ca
  = (inr {| failed := false; changed := false; msg := VStr "ok" |},
     {| self_options := Some o;
        self_changed := false;
        self_inject := inject;
        world := w;
        trace := [] |}).
Proof.
  intros o Hr Hd Hi Hc.
  change [PRESENT; LATEST; ABSENT] with ([PRESENT; LATEST] ++ [ABSENT]) in Hi.
  change [ABSENT; PRESENT; STARTED; RESTARTED]
    with ([ABSENT] ++ [PRESENT; STARTED; RESTARTED]) in Hc.
  rewrite in_strs_app, orb_false_iff in Hi, Hc.
  destruct Hi as [Hi1 Hi2]. destruct Hc as [Hc1 Hc2].
  destruct (invokeW w false inject ma ca) as [outcome self] eqn:E.
  unfold invoke, run, run_steps, set_options in E.
  fold o in E. destruct o as [oc od oi or].
  cbv beta iota delta [opt_role opt_data opt_images opt_containers]
    in Hr, Hd, Hi1, Hi2, Hc1, Hc2.
  destruct (compose_data_images _ Hd) as (d & -> & Ht & Himg).
  enter E Hr Ht.
  rewrite Hi1 in E; sym_in E. rewrite Hc1 in E; sym_in E.
  rewrite Hc2 in E; sym_in E. rewrite Hi2 in E; sym_in E.
  symmetry. exact E.
Qed.

(** *** Exceptions that are not caught *)

(** X13: outside check mode, on a valid role and valid data, with
    containers "absent": when the stat call returns without failure a
    result in which stat.exists cannot be looked up, the exception of the
    lookup leaves [run] uncaught, the stat call being the last call. *)
Theorem stat_lookup_error_propagates (w : World) (inject : dict)
        (ma : string) (ca : option dict) (outcome : exn + ReturnData)
        (self : self_t World) (r : dict) (ex : exn) :
  let o := options_in ma ca in
  let rl := opt_role o in
  truthy rl = true ->
  compose_data (opt_data o) = true ->
  opt_containers o = VStr ABSENT ->
  invokeW w false inject ma ca = (outcome, self) ->
  In (stat_call py_str rl, r) (trace self) ->
  reports_failure (stat_call py_str rl, r) = false ->
  stat_exists r = inl ex ->
  outcome = inl ex /\
  exists before, trace self = before ++ [(stat_call py_str rl, r)].
Proof.
  intros o rl Hr Hd Hc E Hin Hrf Hse. subst rl.
  unfold invoke, run, run_steps, set_options in E.
  fold o in E. destruct o as [oc od oi or].
  cbn in Hr, Hd, Hc. subst oc.
  destruct (compose_data_images _ Hd) as (d & -> & Ht & Himg).
  cbv beta iota delta [opt_role opt_data] in *.
  unfold reports_failure in Hrf. cbn [snd] in Hrf.
  unfold stat_exists, subscript in Hse.
  enter E Hr Ht. run_all E Himg.
  all: which_event Hin.
  all: try (unfold result_failed in *; congruence).
  all: rewrite ?S1 in Hse; rewrite ?S2 in Hse; try discriminate Hse.
  all: injection Hse as <-.
  all: split; [reflexivity|].
  all: first [ exists []; reflexivity | eexists [_]; reflexivity ].
Qed.

(** X14: outside check mode, on a role and data that are true, with images
    "present" or "latest": when the data is not a mapping, or an entry of
    it cannot be searched or subscripted for "image", the exception leaves
    [run] uncaught before any call is made. *)
Theorem malformed_data_raises (w : World) (inject : dict) (ma : string)
        (ca : option dict) (ex : exn) :
  let o := options_in ma ca in
  truthy (opt_role o) = true ->
  truthy (opt_data o) = true ->
  in_strs (opt_images o) [PRESENT; LATEST] = true ->
  match opt_data o with
  | VDict d => images_of (dict_values d)
  | _ => inl AttributeError
  end = inl ex ->
  fst (invokeW w false inject ma ca) = inl ex /\
  trace (snd (invokeW w false inject ma ca)) = [].
Proof.
  intros o Hr Ht Hi Hx.
  destruct (invokeW w false inject ma ca) as [outcome self] eqn:E.
  unfold invoke, run, run_steps, set_options in E.
  fold o in E. destruct o as [oc od oi or].
  cbv beta iota delta [opt_role opt_data opt_images opt_containers]
    in Hr, Ht, Hi, Hx.
  enter E Hr Ht. rewrite Hi in E; sym_in E.
  destruct od as [ | | | | |d];
    try (injection Hx as <-; sym_in E; finish E; split; reflexivity).
  rewrite Hx in E. sym_in E.
  pose proof (images_of_error _ _ Hx) as Hne.
  destruct ex as [m| | | ]; [destruct (Hne m eq_refl)| | | ];
    sym_in E; finish E; split; reflexivity.
Qed.

(** *** The image list *)

(** X15: on entries that are all mappings, the images are the "image"
    values of the entries that have one, in the order of the entries and
    with repetitions. *)
Theorem images_of_mappings (ds : list dict) :
  images_of (map VDict ds)
  = inr (flat_map (fun d => match dict_lookup "image" d with
                            | Some image => [image]
                            | None => []
                            end) ds).
Proof.
  induction ds as [|d ds IH]; [reflexivity|].
  cbn [map flat_map images_of contains subscript].
  destruct (dict_lookup "image" d); rewrite IH; reflexivity.
Qed.
(** *** The template call *)

(** X16: outside check mode, on a valid role and valid data, every call of
    the template module renders the one-line template to the file of the
    role, with the injected variables of the invocation in which only
    "data" is set, to the compose data. *)
Theorem template_gets_data (w : World) (inject : dict) (ma : string)
        (ca : option dict) (outcome : exn + ReturnData)
        (self : self_t World) (body args : string) (module_inject : dict) :
  let o := options_in ma ca in
  truthy (opt_role o) = true ->
  compose_data (opt_data o) = true ->
  invokeW w false inject ma ca = (outcome, self) ->
  In (TemplateRun body args module_inject) (calls (trace self)) ->
  body = template_body /\
  args = ("src=" ++ template_file_name ++ " dest="
            ++ file_of py_str (opt_role o))%string /\
  dict_lookup "data" module_inject = Some (opt_data o) /\
  (forall k, k <> "data" ->
             dict_lookup k module_inject = dict_lookup k inject).
Proof.
  intros o Hr Hd E Hin.
  destruct (run_follows_plan w inject ma ca outcome self Hr Hd E)
    as (b & n & Hcalls & _).
  fold o in Hcalls. rewrite Hcalls in Hin. apply In_firstn in Hin.
  clearbody o. clear Hcalls E Hr Hd.
  revert Hin. unfold plan. cbv zeta. split_plan.
  all: cbn [app]; cbv beta iota delta [In]; intros Hin.
  all: repeat match type of Hin with
              | _ \/ _ =>
                  let H := fresh "Heq" in
                  destruct Hin as [H|Hin];
                  [ cbv beta delta [stat_call remove_file_call
                                      remove_directory_call
                                      create_directory_call template_call
                                      containers_call remove_containers_call
                                      images_call] in H;
                    first [ discriminate H | injection H as <- <- <- ]
                  | ]
              | False => destruct Hin
              end.
  all: repeat split;
    [ apply lookup_dict_set_same
    | intros k Hk; apply lookup_dict_set_other; exact Hk ].
Qed.

(** *** A file that exists *)

(** X17: outside check mode, on a valid role and valid data, with
    containers "absent": when the stat call returns without failure a
    result whose stat.exists is true, the containers are removed; and when
    no call fails the file and the directory are removed too. *)
Theorem existing_file_is_removed (w : World) (inject : dict) (ma : string)
        (ca : option dict) (outcome : exn + ReturnData)
        (self : self_t World) (r : dict) (e : value) :
  let o := options_in ma ca in
  let rl := opt_role o in
  truthy rl = true ->
  compose_data (opt_data o) = true ->
  opt_containers o = VStr ABSENT ->
  invokeW w false inject ma ca = (outcome, self) ->
  In (stat_call py_str rl, r) (trace self) ->
  reports_failure (stat_call py_str rl, r) = false ->
  stat_exists r = inr e ->
  truthy e = true ->
  In (remove_containers_call py_str rl) (calls (trace self)) /\
  (no_failure (trace self) = true ->
   In (remove_file_call py_str rl) (calls (trace self)) /\
   In (remove_directory_call py_str rl) (calls (trace self))).
Proof.
  intros o rl Hr Hd Hc E Hin Hrf Hse Hte. subst rl.
  unfold invoke, run, run_steps, set_options in E.
  fold o in E. destruct o as [oc od oi or].
  cbn in Hr, Hd, Hc. subst oc.
  destruct (compose_data_images _ Hd) as (d & -> & Ht & Himg).
  cbv beta iota delta [opt_role opt_data] in *.
  unfold reports_failure in Hrf. cbn [snd] in Hrf.
  unfold stat_exists, subscript in Hse.
  enter E Hr Ht. run_all E Himg.
  all: which_event Hin.
  all: try (unfold result_failed in *; congruence).
  all: rewrite ?S1 in Hse; rewrite ?S2 in Hse; try discriminate Hse.
  all: try (injection Hse as ->; congruence).
  all: split;
    [ cbv beta iota delta [In]; repeat first [left; reflexivity | right]
    | intros Hnf; failures_in Hnf;
      split; cbv beta iota delta [In];
      repeat first [left; reflexivity | right] ].
Qed.

End Properties.

(** * The properties on the scripted host *)

(** The scenario of the specification: images "latest", containers
    "started"; the containers are started without force. *)
Example nginx_started_calls :
  calls (trace (snd (scripted_invoke [r_changed; r_ok; r_ok; r_ok] false
                       (nginx_args "latest" "started"))))
  = [nginx_pull;
     ExecuteModule "file" "path=/etc/docker-compose/nginx state=directory"
       None;
     TemplateRun template_body
       "src=/tmp/tmpXYZ dest=/etc/docker-compose/nginx/docker-compose.yml"
       [("data", nginx_data)];
     ExecuteModule "docker-compose"
       "path=/etc/docker-compose/nginx/docker-compose.yml state=started force=false"
       None] /\
  fst (scripted_invoke [r_changed; r_ok; r_ok; r_ok] false
         (nginx_args "latest" "started"))
  = inr {| failed := false; changed := true; msg := VStr "ok" |}.
Proof. split; reflexivity. Qed.

(** Structured arguments win over the parsed key=value pairs. *)
Example complex_args_win :
  dict_lookup "role"
    (merged_args (fun _ => [("role", VStr "a"); ("images", VStr "latest")])
       "role=a images=latest" (Some [("role", VStr "b")]))
  = Some (VStr "b").
Proof. reflexivity. Qed.

(** An entry that is a string containing "image" cannot be subscripted. *)
Example images_of_string_entry :
  images_of [VDict [("image", VStr "a")]; VStr "my image"] = inl TypeError /\
  images_of [VDict [("image", VStr "a")]; VStr "other"; VDict []]
  = inr [VStr "a"].
Proof. split; reflexivity. Qed.

(** C2 as stated fails in check mode: without a role the check-mode
    invocation does not return the "role is required" failure. *)
Lemma missing_role_accepted_in_check_mode :
  truthy (dict_get "role" VNone (merged_args no_kv "" None)) = false /\
  fst no_role_check_run
  <> inr {| failed := true; changed := false;
            msg := VStr "role is required" |}.
Proof. split; [reflexivity | discriminate]. Qed.

Lemma missing_role_is_rejected_witness :
  truthy (dict_get "role" VNone (merged_args no_kv "" None)) = false /\
  fst no_role_run
  = inr {| failed := true; changed := false;
           msg := VStr "role is required" |} /\
  trace (snd no_role_run) = [] /\
  world (snd no_role_run) = [].
Proof.
  split; [reflexivity|].
  exact (missing_role_is_rejected script scripted no_kv str_unused tmp_name
           [] [] "" None eq_refl).
Defined.

Lemma pull_precedes_forced_start_witness :
  truthy (opt_role (scripted_options (nginx_args "latest" "restarted")))
  = true /\
  compose_data (opt_data (scripted_options (nginx_args "latest" "restarted")))
  = true /\
  opt_images (scripted_options (nginx_args "latest" "restarted"))
  = VStr LATEST /\
  opt_containers (scripted_options (nginx_args "latest" "restarted"))
  = VStr RESTARTED /\
  calls (trace (snd restart_run))
  = [nginx_pull;
     ExecuteModule "file" "path=/etc/docker-compose/nginx state=directory"
       None;
     TemplateRun template_body
       "src=/tmp/tmpXYZ dest=/etc/docker-compose/nginx/docker-compose.yml"
       [("data", nginx_data)];
     ExecuteModule "docker-compose"
       "path=/etc/docker-compose/nginx/docker-compose.yml state=started force=true"
       None].
Proof.
  repeat (split; [reflexivity|]).
  destruct (pull_precedes_forced_start script scripted no_kv str_unused
              tmp_name [r_changed; r_ok; r_ok; r_changed] [] ""
              (nginx_args "latest" "restarted")
              (fst restart_run) (snd restart_run)
              eq_refl eq_refl eq_refl eq_refl eq_refl)
    as (_ & _ & rd & Hrd & H).
  vm_compute in Hrd. injection Hrd as <-. exact (H eq_refl).
Defined.

Lemma removal_precedes_image_removal_witness :
  truthy (opt_role (scripted_options (nginx_args "absent" "absent")))
  = true /\
  compose_data (opt_data (scripted_options (nginx_args "absent" "absent")))
  = true /\
  opt_containers (scripted_options (nginx_args "absent" "absent"))
  = VStr ABSENT /\
  opt_images (scripted_options (nginx_args "absent" "absent"))
  = VStr ABSENT /\
  no_failure (trace (snd teardown_run)) = true /\
  calls (trace (snd teardown_run))
  = [nginx_stat;
     ExecuteModule "docker-compose"
       "path=/etc/docker-compose/nginx/docker-compose.yml state=absent force=true"
       None;
     ExecuteModule "file"
       "path=/etc/docker-compose/nginx/docker-compose.yml state=absent" None;
     nginx_remove_directory;
     ExecuteModule "docker-images" "state=absent"
       (Some [("images", VList [VStr "nginx:latest"])])].
Proof.
  repeat (split; [reflexivity|]).
  exact (proj1
           (removal_precedes_image_removal script scripted no_kv str_unused
              tmp_name
              [r_stat true; r_changed; r_changed; r_changed; r_changed]
              [] "" (nginx_args "absent" "absent")
              (fst teardown_run) (snd teardown_run)
              eq_refl eq_refl eq_refl eq_refl eq_refl eq_refl)).
Defined.

Lemma missing_file_skips_removal_witness :
  truthy (opt_role (scripted_options (nginx_args "latest" "absent")))
  = true /\
  compose_data (opt_data (scripted_options (nginx_args "latest" "absent")))
  = true /\
  opt_containers (scripted_options (nginx_args "latest" "absent"))
  = VStr ABSENT /\
  In (nginx_stat, r_stat false) (trace (snd nothing_to_remove_run)) /\
  reports_failure (nginx_stat, r_stat false) = false /\
  stat_exists (r_stat false) = inr (VBool false) /\
  calls (trace (snd nothing_to_remove_run))
  = [nginx_pull; nginx_stat; nginx_remove_directory] /\
  In nginx_remove_directory (calls (trace (snd nothing_to_remove_run))).
Proof.
  repeat (split; [reflexivity|]).
  split; [right; left; reflexivity|].
  repeat (split; [reflexivity|]).
  exact (proj2 (proj2
           (missing_file_skips_removal script scripted no_kv str_unused
              tmp_name [r_ok; r_stat false; r_ok] [] ""
              (nginx_args "latest" "absent")
              (fst nothing_to_remove_run) (snd nothing_to_remove_run)
              (r_stat false) (VBool false)
              eq_refl eq_refl eq_refl eq_refl
              (or_intror (or_introl eq_refl)) eq_refl eq_refl eq_refl))).
Defined.

Lemma first_failure_aborts_witness :
  trace (snd failed_pull_run) = [] ++ (nginx_pull, r_failed) :: [] /\
  reports_failure (nginx_pull, r_failed) = true /\
  reports_change (nginx_pull, r_failed) = false /\
  fst failed_pull_run
  = inr {| failed := true; changed := false; msg := VStr "boom" |}.
Proof.
  repeat (split; [reflexivity|]).
  destruct (first_failure_aborts script scripted no_kv str_unused tmp_name
              [r_failed] [] "" (nginx_args "latest" "started")
              (fst failed_pull_run) (snd failed_pull_run)
              [] [] nginx_pull r_failed eq_refl eq_refl eq_refl)
    as (_ & _ & _ & H).
  exact (H eq_refl eq_refl).
Defined.

Lemma change_kept_on_failure_witness :
  trace (snd changed_failed_pull_run)
  = [] ++ (nginx_pull, r_changed_failed) :: [] /\
  reports_failure (nginx_pull, r_changed_failed) = true /\
  reports_change (nginx_pull, r_changed_failed) = true /\
  fst changed_failed_pull_run
  = inr {| failed := true; changed := true; msg := VStr "boom" |}.
Proof.
  repeat (split; [reflexivity|]).
  exact (proj1
           (change_kept_on_failure script scripted no_kv str_unused tmp_name
              [r_changed_failed] false [] "" (nginx_args "latest" "started")
              (fst changed_failed_pull_run) (snd changed_failed_pull_run)
              [] [] nginx_pull r_changed_failed
              eq_refl eq_refl eq_refl eq_refl)).
Defined.

(** C10 as stated fails for images "absent": when the stat call fails, the
    run stops before the image removal and the docker-images module is
    never called. *)
Lemma image_removal_not_reached :
  truthy (opt_role (scripted_options (plain_args "absent" "absent")))
  = true /\
  truthy (opt_data (scripted_options (plain_args "absent" "absent")))
  = true /\
  no_image_field (opt_data (scripted_options (plain_args "absent" "absent")))
  = true /\
  opt_images (scripted_options (plain_args "absent" "absent"))
  = VStr ABSENT /\
  ~ In "docker-images"
      (map call_module_name (calls (trace (snd plain_failed_stat_run)))).
Proof.
  repeat (split; [reflexivity|]).
  intros [H|[]]. discriminate H.
Qed.

Lemma images_call_with_empty_list_witness :
  truthy (opt_role (scripted_options (plain_args "present" "started")))
  = true /\
  truthy (opt_data (scripted_options (plain_args "present" "started")))
  = true /\
  no_image_field (opt_data (scripted_options (plain_args "present" "started")))
  = true /\
  in_strs (opt_images (scripted_options (plain_args "present" "started")))
    [PRESENT; LATEST; ABSENT] = true /\
  exists rest,
    calls (trace (snd plain_present_run))
    = ExecuteModule "docker-images" "state=present"
        (Some [("images", VList [])]) :: rest.
Proof.
  repeat (split; [reflexivity|]).
  exact (proj1
           (images_call_with_empty_list script scripted no_kv str_unused
              tmp_name [r_ok; r_ok; r_ok; r_ok] [] ""
              (plain_args "present" "started")
              (fst plain_present_run) (snd plain_present_run)
              eq_refl eq_refl eq_refl eq_refl eq_refl)
           eq_refl).
Defined.

(** * The further properties on the scripted host *)

Lemma missing_data_is_rejected_witness :
  truthy (opt_role (scripted_options (Some [("role", VStr "nginx")])))
  = true /\
  truthy (opt_data (scripted_options (Some [("role", VStr "nginx")])))
  = false /\
  fst no_data_run
  = inr {| failed := true; changed := false;
           msg := VStr "data is required" |}.
Proof.
  repeat (split; [reflexivity|]).
  exact (proj1
           (missing_data_is_rejected script scripted no_kv str_unused
              tmp_name [] [] "" (Some [("role", VStr "nginx")])
              eq_refl eq_refl)).
Defined.

Lemma outcome_characterised_witness :
  fst failed_pull_run
  = inr {| failed := true; changed := false; msg := VStr "boom" |} /\
  exists l e,
    trace (snd failed_pull_run) = l ++ [e] /\ no_failure l = true /\
    reports_failure e = true /\ VStr "boom" = result_msg (snd e).
Proof.
  split; [reflexivity|].
  destruct (outcome_characterised script scripted no_kv str_unused tmp_name
              [r_failed] [] "" (nginx_args "latest" "started")
              (fst failed_pull_run) (snd failed_pull_run)
              {| failed := true; changed := false; msg := VStr "boom" |}
              eq_refl eq_refl)
    as [(H & _)|[(_ & H & _)|[(_ & H & _)|(_ & H)]]];
    [discriminate H | discriminate H | discriminate H | exact H].
Defined.

Lemma complex_args_override_witness :
  NoDup (map fst [("role", VStr "b")]) /\
  dict_lookup "role"
    (merged_args kv_role_a "role=a images=latest" (Some [("role", VStr "b")]))
  = Some (VStr "b") /\
  dict_lookup "images"
    (merged_args kv_role_a "role=a images=latest" (Some [("role", VStr "b")]))
  = Some (VStr "latest").
Proof.
  assert (H : NoDup (map fst [("role", VStr "b")]))
    by (repeat constructor; intros []).
  split; [exact H|]. split.
  - exact (complex_args_override kv_role_a "role=a images=latest"
             [("role", VStr "b")] "role" H).
  - exact (complex_args_override kv_role_a "role=a images=latest"
             [("role", VStr "b")] "images" H).
Defined.

Lemma unrecognised_key_is_ignored_witness :
  "verbose" <> "containers" /\ "verbose" <> "data" /\
  "verbose" <> "images" /\ "verbose" <> "role" /\
  scripted_invoke [r_changed; r_ok; r_ok; r_ok] false
    (Some (nginx_pairs "latest" "started" ++ [("verbose", VBool true)]))
  = scripted_invoke [r_changed; r_ok; r_ok; r_ok] false
      (Some (nginx_pairs "latest" "started")).
Proof.
  assert (H1 : "verbose" <> "containers") by discriminate.
  assert (H2 : "verbose" <> "data") by discriminate.
  assert (H3 : "verbose" <> "images") by discriminate.
  assert (H4 : "verbose" <> "role") by discriminate.
  repeat (split; [assumption|]).
  exact (unrecognised_key_is_ignored script scripted no_kv str_unused
           tmp_name [r_changed; r_ok; r_ok; r_ok] false [] ""
           (nginx_pairs "latest" "started") "verbose" (VBool true)
           H1 H2 H3 H4).
Defined.

Lemma calls_follow_plan_witness :
  truthy (opt_role (scripted_options (nginx_args "latest" "started")))
  = true /\
  compose_data (opt_data (scripted_options (nginx_args "latest" "started")))
  = true /\
  exists file_exists n,
    calls (trace (snd started_run))
    = firstn n (plan str_unused tmp_name []
                  (scripted_options (nginx_args "latest" "started"))
                  file_exists) /\
    (forall rd, fst started_run = inr rd -> failed rd = false ->
                calls (trace (snd started_run))
                = plan str_unused tmp_name []
                    (scripted_options (nginx_args "latest" "started"))
                    file_exists).
Proof.
  repeat (split; [reflexivity|]).
  exact (calls_follow_plan script scripted no_kv str_unused tmp_name
           [r_changed; r_ok; r_ok; r_ok] [] ""
           (nginx_args "latest" "started")
           (fst started_run) (snd started_run) eq_refl eq_refl eq_refl).
Defined.

Lemma calls_are_few_and_distinct_witness :
  truthy (opt_role (scripted_options (nginx_args "latest" "started")))
  = true /\
  compose_data (opt_data (scripted_options (nginx_args "latest" "started")))
  = true /\
  length (trace (snd started_run)) = 4 /\
  NoDup (calls (trace (snd started_run))).
Proof.
  repeat (split; [reflexivity|]).
  exact (proj2
           (calls_are_few_and_distinct script scripted no_kv str_unused
              tmp_name [r_changed; r_ok; r_ok; r_ok] [] ""
              (nginx_args "latest" "started")
              (fst started_run) (snd started_run)
              eq_refl eq_refl eq_refl)).
Defined.

Lemma containers_module_calls_witness :
  truthy (opt_role (scripted_options (nginx_args "latest" "started")))
  = true /\
  compose_data (opt_data (scripted_options (nginx_args "latest" "started")))
  = true /\
  In (nginx_start false) (calls (trace (snd started_run))) /\
  call_module_name (nginx_start false) = "docker-compose" /\
  in_strs (VStr "started") [RESTARTED] = false /\
  (nginx_start false
   = remove_containers_call str_unused (VStr "nginx") /\
   in_strs (VStr "started") [ABSENT] = true
   \/
   nginx_start false
   = containers_call str_unused (VStr "nginx")
       (in_strs (VStr "started") [RESTARTED]) /\
   in_strs (VStr "started") [ABSENT] = false /\
   in_strs (VStr "started") [STARTED; RESTARTED] = true).
Proof.
  repeat (split; [reflexivity|]).
  split; [do 3 right; left; reflexivity|].
  repeat (split; [reflexivity|]).
  exact (containers_module_calls script scripted no_kv str_unused tmp_name
           [r_changed; r_ok; r_ok; r_ok] [] ""
           (nginx_args "latest" "started")
           (fst started_run) (snd started_run) (nginx_start false)
           eq_refl eq_refl eq_refl
           (or_intror (or_intror (or_intror (or_introl eq_refl))))
           eq_refl).
Defined.

Lemma file_is_written_before_start_witness :
  truthy (opt_role (scripted_options (nginx_args "latest" "started")))
  = true /\
  compose_data (opt_data (scripted_options (nginx_args "latest" "started")))
  = true /\
  In (nginx_start false) (calls (trace (snd started_run))) /\
  precedes nginx_template (nginx_start false)
    (calls (trace (snd started_run))).
Proof.
  repeat (split; [reflexivity|]).
  split; [do 3 right; left; reflexivity|].
  exact (proj2
           (file_is_written_before_start script scripted no_kv str_unused
              tmp_name [r_changed; r_ok; r_ok; r_ok] [] ""
              (nginx_args "latest" "started")
              (fst started_run) (snd started_run) false
              eq_refl eq_refl eq_refl)
           (or_intror (or_intror (or_intror (or_introl eq_refl))))).
Defined.

Lemma removal_is_ordered_witness :
  truthy (opt_role (scripted_options (Some (nginx_pairs "keep" "absent"))))
  = true /\
  compose_data
    (opt_data (scripted_options (Some (nginx_pairs "keep" "absent"))))
  = true /\
  In nginx_remove_file (calls (trace (snd removal_stopped_run))) /\
  precedes nginx_remove_containers nginx_remove_file
    (calls (trace (snd removal_stopped_run))).
Proof.
  repeat (split; [reflexivity|]).
  split; [do 2 right; left; reflexivity|].
  exact (proj1 (proj2
           (removal_is_ordered script scripted no_kv str_unused tmp_name
              [r_stat true; r_ok; r_failed] [] ""
              (Some (nginx_pairs "keep" "absent"))
              (fst removal_stopped_run) (snd removal_stopped_run)
              eq_refl eq_refl eq_refl))
           (or_intror (or_intror (or_introl eq_refl)))).
Defined.

Lemma unrecognised_states_are_skipped_witness :
  truthy (opt_role
            (scripted_options
               (Some (nginx_pairs "newest" "started")))) = true /\
  compose_data (opt_data
                  (scripted_options
                     (Some (nginx_pairs "newest" "started")))) = true /\
  In nginx_directory
    (calls (trace (snd (scripted_invoke [r_ok; r_ok; r_ok] false
                          (Some (nginx_pairs "newest" "started")))))) /\
  in_strs (VStr "newest") [PRESENT; LATEST; ABSENT] = false /\
  call_module_name nginx_directory <> "docker-images".
Proof.
  repeat (split; [reflexivity|]).
  split; [left; reflexivity|]. split; [reflexivity|].
  exact (proj1
           (unrecognised_states_are_skipped script scripted no_kv str_unused
              tmp_name [r_ok; r_ok; r_ok] [] ""
              (Some (nginx_pairs "newest" "started"))
              (fst (scripted_invoke [r_ok; r_ok; r_ok] false
                      (Some (nginx_pairs "newest" "started"))))
              (snd (scripted_invoke [r_ok; r_ok; r_ok] false
                      (Some (nginx_pairs "newest" "started"))))
              nginx_directory eq_refl eq_refl eq_refl
              (or_introl eq_refl))
           eq_refl).
Defined.

Lemma nothing_requested_witness :
  truthy (opt_role (scripted_options idle_args)) = true /\
  compose_data (opt_data (scripted_options idle_args)) = true /\
  in_strs (opt_images (scripted_options idle_args))
    [PRESENT; LATEST; ABSENT] = false /\
  in_strs (opt_containers (scripted_options idle_args))
    [ABSENT; PRESENT; STARTED; RESTARTED] = false /\
  idle_run
  = (inr {| failed := false; changed := false; msg := VStr "ok" |},
     {| self_options := Some (scripted_options idle_args);
        self_changed := false;
        self_inject := [];
        world := [r_changed];
        trace := [] |}).
Proof.
  repeat (split; [reflexivity|]).
  exact (nothing_requested script scripted no_kv str_unused tmp_name
           [r_changed] [] "" idle_args eq_refl eq_refl eq_refl eq_refl).
Defined.

Lemma stat_lookup_error_propagates_witness :
  truthy (opt_role (scripted_options (nginx_args "latest" "absent")))
  = true /\
  compose_data (opt_data (scripted_options (nginx_args "latest" "absent")))
  = true /\
  opt_containers (scripted_options (nginx_args "latest" "absent"))
  = VStr ABSENT /\
  In (nginx_stat, r_ok) (trace (snd bad_stat_run)) /\
  reports_failure (nginx_stat, r_ok) = false /\
  stat_exists r_ok = inl (KeyError "stat") /\
  fst bad_stat_run = inl (KeyError "stat").
Proof.
  repeat (split; [reflexivity|]).
  split; [right; left; reflexivity|].
  repeat (split; [reflexivity|]).
  exact (proj1
           (stat_lookup_error_propagates script scripted no_kv str_unused
              tmp_name [r_ok; r_ok] [] "" (nginx_args "latest" "absent")
              (fst bad_stat_run) (snd bad_stat_run) r_ok (KeyError "stat")
              eq_refl eq_refl eq_refl eq_refl
              (or_intror (or_introl eq_refl)) eq_refl eq_refl)).
Defined.

Lemma malformed_data_raises_witness :
  truthy (opt_role (scripted_options broken_args)) = true /\
  truthy (opt_data (scripted_options broken_args)) = true /\
  in_strs (opt_images (scripted_options broken_args)) [PRESENT; LATEST]
  = true /\
  images_of (dict_values [("web", VNone)]) = inl TypeError /\
  fst broken_run = inl TypeError /\
  trace (snd broken_run) = [].
Proof.
  repeat (split; [reflexivity|]).
  exact (proj2
           (malformed_data_raises script scripted no_kv str_unused tmp_name
              [r_ok] [] "" broken_args TypeError
              eq_refl eq_refl eq_refl eq_refl)).
Defined.

Lemma template_gets_data_witness :
  truthy (opt_role (scripted_options (nginx_args "latest" "started")))
  = true /\
  compose_data (opt_data (scripted_options (nginx_args "latest" "started")))
  = true /\
  In nginx_template (calls (trace (snd started_run))) /\
  dict_lookup "data" [("data", nginx_data)] = Some nginx_data.
Proof.
  repeat (split; [reflexivity|]).
  split; [do 2 right; left; reflexivity|].
  exact (proj1 (proj2 (proj2
           (template_gets_data script scripted no_kv str_unused tmp_name
              [r_changed; r_ok; r_ok; r_ok] [] ""
              (nginx_args "latest" "started")
              (fst started_run) (snd started_run)
              template_body
              "src=/tmp/tmpXYZ dest=/etc/docker-compose/nginx/docker-compose.yml"
              [("data", nginx_data)]
              eq_refl eq_refl eq_refl
              (or_intror (or_intror (or_introl eq_refl))))))).
Defined.

Lemma existing_file_is_removed_witness :
  truthy (opt_role (scripted_options (Some (nginx_pairs "keep" "absent"))))
  = true /\
  compose_data
    (opt_data (scripted_options (Some (nginx_pairs "keep" "absent"))))
  = true /\
  opt_containers (scripted_options (Some (nginx_pairs "keep" "absent")))
  = VStr ABSENT /\
  In (nginx_stat, r_stat true) (trace (snd partial_removal_run)) /\
  reports_failure (nginx_stat, r_stat true) = false /\
  stat_exists (r_stat true) = inr (VBool true) /\
  In nginx_remove_containers (calls (trace (snd partial_removal_run))).
Proof.
  repeat (split; [reflexivity|]).
  split; [left; reflexivity|].
  repeat (split; [reflexivity|]).
  exact (proj1
           (existing_file_is_removed script scripted no_kv str_unused
              tmp_name [r_stat true; r_failed] [] ""
              (Some (nginx_pairs "keep" "absent"))
              (fst partial_removal_run) (snd partial_removal_run)
              (r_stat true) (VBool true)
              eq_refl eq_refl eq_refl eq_refl
              (or_introl eq_refl) eq_refl eq_refl eq_refl)).
Defined.
